(** * Admission validation and controller enablement of the ingress controller

    A shallow embedding of
    - [ControllerDef.MaybeSetupWithManager] (railgun/manager/manager.go),
    - [getOrCreateConfigSecret] (railgun/controllers/configuration),
    - the loop of [Run] over its controllers (railgun/manager/manager.go),
    - [KongHTTPValidator] with [ValidateConsumer], [ValidatePlugin],
      [ValidateCredential] and the table [credTypeToFields]
      (package admission),
    - the generated deep copies of [KongConsumer] and [KongConsumerList]
      (railgun/apis/configuration/v1),
    followed by the properties the specification states about them and by
    further properties read off the code.

    Conventions of the embedding.
    - A Go [string] and a Go [[]byte] are both [string] (a sequence of
      bytes); the conversion [string(b)] is the identity.
    - A Go [error] is [option error]: [None] is the nil error.
    - A Go map that may be nil is [option (gmap K V)]: [None] is the nil
      map. Reading a nil map finds nothing, as in Go.
    - Calls to collaborators (the manager, the Kong Admin API client, the
      Kubernetes client, the logger) thread the collaborator's state and
      append one event per call to a trace, so that "is invoked", "exactly
      once" and "issues no remote request" are statements about the trace. *)

From Stdlib Require Import ZArith String List Lia.
From stdpp Require Import base option list gmap strings fin_maps.


(** ** Go errors *)

(** The double quote, as the verb [%q] prints it around its argument. *)
Definition dquote : string := String (Ascii.ascii_of_nat 34) EmptyString.

(** The error values the embedded code meets.
    - [ErrExternal text notFound]: an error handed back by a collaborator
      (go-kong, the Kubernetes client, kongstate); [text] is what its
      [Error()] method prints, [notFound] whether the collaborator's own
      classification as not-found holds.
    - [ErrAutoNotSupported name]: the error built in [MaybeSetupWithManager].
    - [ErrWrap prefix cause]: [fmt.Errorf(prefix + "%w", cause)]. *)
Inductive error : Type :=
| ErrExternal (text : string) (notFound : bool)
| ErrAutoNotSupported (name : string)
| ErrWrap (prefix : string) (cause : error).

(** [err.Error()]. [%q] is rendered as the name between double quotes (the
    names are Go type names, which need no escaping). *)
Fixpoint Error (e : error) : string :=
  match e with
  | ErrExternal text _ => text
  | ErrAutoNotSupported name =>
      "'auto' enablement not supported for controller " +:+ dquote +:+ name +:+ dquote
  | ErrWrap prefix cause => prefix +:+ Error cause
  end.

(** [kong.IsNotFoundErr] of go-kong: a type switch on the error itself,
    which a wrapped error does not pass. *)
Definition IsNotFound (e : error) : bool :=
  match e with
  | ErrExternal _ notFound => notFound
  | _ => false
  end.

(** The errors of apimachinery (k8s.io/apimachinery/pkg/api/errors). *)
Module apierrors.

(** [errors.IsNotFound]: it looks for the API status along the chain of
    wrapped errors (by [errors.As]), so a not-found that was wrapped by
    [fmt.Errorf] with [%w] is still a not-found. *)
Fixpoint IsNotFound (e : error) : bool :=
  match e with
  | ErrExternal _ notFound => notFound
  | ErrAutoNotSupported _ => false
  | ErrWrap _ cause => IsNotFound cause
  end.

End apierrors.

(** A Go pair [(value, err)] whose value is read only when [err] is nil. *)
Inductive result (A : Type) : Type :=
| Ok (a : A)
| Err (e : error).
Arguments Ok {A} a.
Arguments Err {A} e.

(** ** Effects: state passing with a trace of calls *)

Definition Eff (St Ev A : Type) : Type := St -> A * St * list Ev.

Definition ret {St Ev A} (a : A) : Eff St Ev A :=
  fun s => (a, s, []).

Definition bind {St Ev A B} (m : Eff St Ev A) (k : A -> Eff St Ev B) : Eff St Ev B :=
  fun s =>
    let '(a, s1, t1) := m s in
    let '(b, s2, t2) := k a s1 in
    (b, s2, t1 ++ t2).

(** [call f ev]: run the collaborator's operation [f] on its state and log
    the event [ev] built from its answer. *)
Definition call {St Ev A} (f : St -> A * St) (ev : A -> Ev) : Eff St Ev A :=
  fun s => let '(a, s') := f s in (a, s', [ev a]).

Notation "'let*' x ':=' m 'in' k" := (bind m (fun x => k))
  (at level 10, x name, m at level 100, k at level 200).

Definition value {St Ev A} (r : A * St * list Ev) : A := r.1.1.
Definition final {St Ev A} (r : A * St * list Ev) : St := r.1.2.
Definition trace {St Ev A} (r : A * St * list Ev) : list Ev := r.2.

(** ** Controller registration and enablement (railgun/manager/manager.go) *)

Module util.

(** Modelled from the spec: [util.EnablementStatus] is declared in
    pkg/util, which is not among the sources; the data model gives the
    enumeration Enabled, Disabled, Auto. *)
Inductive EnablementStatus : Type :=
| EnablementStatusDisabled
| EnablementStatusEnabled
| EnablementStatusAuto.

Global Instance EnablementStatus_eq_dec : EqDecision EnablementStatus.
Proof. solve_decision. Defined.

End util.

Module manager.
Import util.

(** The enablement fields of [Config]; the other fields play no role in
    the resolution. *)
Record Config : Type := {
  KongStateEnabled : EnablementStatus;
  IngressExtV1beta1Enabled : EnablementStatus;
  IngressNetV1beta1Enabled : EnablementStatus;
  IngressNetV1Enabled : EnablementStatus;
  UDPIngressEnabled : EnablementStatus;
  TCPIngressEnabled : EnablementStatus;
  KongIngressEnabled : EnablementStatus;
  KongClusterPluginEnabled : EnablementStatus;
  KongPluginEnabled : EnablementStatus;
  KongConsumerEnabled : EnablementStatus;
  ServiceEnabled : EnablementStatus
}.

(** [ctrl.Manager], as far as the resolution uses it: it hands out an API
    reader. Its state has type [Mgr]. *)
Class Manager (Mgr Reader : Type) : Type := {
  GetAPIReader : Mgr -> Reader
}.

(** [Controller]: the interface with the single method
    [SetupWithManager], which may change the manager; [TypeName] is what
    [reflect.TypeOf(c).String()] prints for the concrete type. *)
Record Controller (Mgr : Type) : Type := {
  TypeName : string;
  SetupWithManager : Mgr -> option error * Mgr
}.
Arguments TypeName {Mgr} _.
Arguments SetupWithManager {Mgr} _ _.

Definition AutoHandler (Reader : Type) : Type := Reader -> bool.

(** [ControllerDef]. [IsEnabled] is a pointer to a field of [Config]
    ([&c.ServiceEnabled] in [Run]): it is the field's projection, read
    from the live [Config] whenever it is dereferenced. A nil
    [AutoHandler] is [None]. *)
Record ControllerDef (Mgr Reader : Type) : Type := {
  IsEnabled : Config -> EnablementStatus;
  AutoHandler_ : option (AutoHandler Reader);
  Controller_ : Controller Mgr
}.
Arguments IsEnabled {Mgr Reader} _ _.
Arguments AutoHandler_ {Mgr Reader} _.
Arguments Controller_ {Mgr Reader} _.

(** The calls [MaybeSetupWithManager] makes. *)
Inductive Event : Type :=
| CallGetAPIReader
| CallAutoHandler (enable : bool)
| CallSetupWithManager (name : string) (err : option error).

Definition isSetup (e : Event) : bool :=
  match e with CallSetupWithManager _ _ => true | _ => false end.

Definition isAutoHandler (e : Event) : bool :=
  match e with CallAutoHandler _ => true | _ => false end.

Section Resolver.
Context {Mgr Reader : Type} `{!Manager Mgr Reader}.

Definition Name (c : ControllerDef Mgr Reader) : string :=
  TypeName (Controller_ c).

(** The body of the [default] case, which the Auto case falls through
    to. *)
Definition setup (c : ControllerDef Mgr Reader) : Eff Mgr Event (option error) :=
  call (SetupWithManager (Controller_ c)) (CallSetupWithManager (Name c)).

Definition MaybeSetupWithManager (c : ControllerDef Mgr Reader) (cfg : Config)
  : Eff Mgr Event (option error) :=
  match IsEnabled c cfg with
  | EnablementStatusDisabled => ret None
  | EnablementStatusAuto =>
      match AutoHandler_ c with
      | None => ret (Some (ErrAutoNotSupported (Name c)))
      | Some handler =>
          let* reader := call (fun mgr => (GetAPIReader mgr, mgr)) (fun _ => CallGetAPIReader) in
          let* enable := call (fun mgr => (handler reader, mgr)) CallAutoHandler in
          if negb enable then ret None
          else setup c
      end
  | _ => setup c
  end.

(** What [Run] puts before the error of the controller that failed:
    [fmt.Errorf("unable to create controller %q: %w", c.Name(), err)]. *)
Definition unableToCreate (c : ControllerDef Mgr Reader) : string :=
  "unable to create controller " +:+ dquote +:+ Name c +:+ dquote +:+ ": ".

(** The loop of [Run] over its controllers,
    [for _, c := range controllers { if err := c.MaybeSetupWithManager(mgr); err != nil { return ... } }].
    [Some err] is what [Run] returns from inside the loop; [None] means
    the loop ran to its end and [Run] goes on. *)
Fixpoint RunControllers (controllers : list (ControllerDef Mgr Reader)) (cfg : Config)
  : Eff Mgr Event (option error) :=
  match controllers with
  | [] => ret None
  | c :: rest =>
      let* err := MaybeSetupWithManager c cfg in
      match err with
      | Some err => ret (Some (ErrWrap (unableToCreate c) err))
      | None => RunControllers rest cfg
      end
  end.

(** The reconcilers [Run] builds (railgun/controllers, not among the
    sources): each is a [Controller] of its own. *)
Record Reconcilers : Type := {
  CoreV1ServiceReconciler : Controller Mgr;
  CoreV1EndpointsReconciler : Controller Mgr;
  NetV1IngressReconciler : Controller Mgr;
  NetV1Beta1IngressReconciler : Controller Mgr;
  ExtV1Beta1IngressReconciler : Controller Mgr;
  KongV1Alpha1UDPIngressReconciler : Controller Mgr;
  KongV1Beta1TCPIngressReconciler : Controller Mgr;
  KongV1KongIngressReconciler : Controller Mgr;
  KongV1KongClusterPluginReconciler : Controller Mgr;
  KongV1KongPluginReconciler : Controller Mgr;
  KongV1KongConsumerReconciler : Controller Mgr
}.

(** A [ControllerDef] literal that leaves [AutoHandler] out. *)
Definition def (isEnabled : Config -> EnablementStatus) (controller : Controller Mgr)
  : ControllerDef Mgr Reader :=
  {| IsEnabled := isEnabled; AutoHandler_ := None; Controller_ := controller |}.

(** The slice [controllers] of [Run]. *)
Definition controllers (r : Reconcilers) : list (ControllerDef Mgr Reader) :=
  [ def ServiceEnabled (CoreV1ServiceReconciler r);
    def ServiceEnabled (CoreV1EndpointsReconciler r);
    def IngressNetV1Enabled (NetV1IngressReconciler r);
    def IngressNetV1beta1Enabled (NetV1Beta1IngressReconciler r);
    def IngressExtV1beta1Enabled (ExtV1Beta1IngressReconciler r);
    def UDPIngressEnabled (KongV1Alpha1UDPIngressReconciler r);
    def TCPIngressEnabled (KongV1Beta1TCPIngressReconciler r);
    def KongIngressEnabled (KongV1KongIngressReconciler r);
    def KongClusterPluginEnabled (KongV1KongClusterPluginReconciler r);
    def KongPluginEnabled (KongV1KongPluginReconciler r);
    def KongConsumerEnabled (KongV1KongConsumerReconciler r) ].

(** What setting up the entries [entries] one after the other does,
    starting from the manager [mgr]: the manager they leave and the
    [SetupWithManager] calls, each with the name and the answer of its
    entry. The entries are taken as they stand in the list, with their own
    [SetupWithManager], so two entries of one type name are told apart by
    what their setup does. *)
Fixpoint installAll (entries : list (ControllerDef Mgr Reader)) (mgr : Mgr)
  : Mgr * list Event :=
  match entries with
  | [] => (mgr, [])
  | c :: rest =>
      let answer := SetupWithManager (Controller_ c) mgr in
      let later := installAll rest answer.2 in
      (later.1, CallSetupWithManager (Name c) answer.1 :: later.2)
  end.

End Resolver.

End manager.

(** ** Kubernetes objects the code handles *)

Module corev1.

(** [corev1.Secret]: its name, its namespace and its content mapping
    [Data] of type [map[string][]byte], nil in a fresh secret. *)
Record Secret : Type := {
  Name : string;
  Namespace : string;
  Data : option (gmap string string)
}.

(** [new(corev1.Secret)]: the zero value. *)
Definition new : Secret :=
  {| Name := EmptyString; Namespace := EmptyString; Data := None |}.

Definition SetName (s : Secret) (name : string) : Secret :=
  {| Name := name; Namespace := Namespace s; Data := Data s |}.

Definition SetNamespace (s : Secret) (namespace : string) : Secret :=
  {| Name := Name s; Namespace := namespace; Data := Data s |}.

Definition SetData (s : Secret) (data : gmap string string) : Secret :=
  {| Name := Name s; Namespace := Namespace s; Data := Some data |}.

(** [v, ok := secret.Data[key]]: [None] when [ok] is false; a nil map has
    no key. *)
Definition index (s : Secret) (key : string) : option string :=
  match Data s with
  | None => None
  | Some data => data !! key
  end.

End corev1.

Module types.

Record NamespacedName : Type := {
  Namespace : string;
  Name : string
}.

End types.

(** ** The config secret accessor (railgun/controllers/configuration) *)

Module configuration.

(** [client.Client], as far as the accessor uses it. Both methods take
    the object by pointer and may overwrite it with what the API server
    answers, so they hand the object back next to the error. [Cluster]
    is the state of the object store. *)
Record Client (Cluster : Type) : Type := {
  Get : types.NamespacedName -> corev1.Secret -> Cluster -> (corev1.Secret * option error) * Cluster;
  Create : corev1.Secret -> Cluster -> (corev1.Secret * option error) * Cluster
}.
Arguments Get {Cluster} _ _ _ _.
Arguments Create {Cluster} _ _ _.

Inductive Event : Type :=
| CallGet (key : types.NamespacedName) (err : option error)
| CallCreate (obj : corev1.Secret) (err : option error).

Section Accessor.
Context {Cluster : Type}.

Definition getOrCreateConfigSecret (c : Client Cluster) (targetNsn : types.NamespacedName)
  : Eff Cluster Event (option corev1.Secret * bool * option error) :=
  let secret := corev1.new in
  let* got := call (Get c targetNsn secret) (fun r => CallGet targetNsn r.2) in
  let secret := got.1 in
  match got.2 with
  | Some err =>
      if apierrors.IsNotFound err then
        let secret := corev1.SetName secret (types.Name targetNsn) in
        let secret := corev1.SetNamespace secret (types.Namespace targetNsn) in
        let* created := call (Create c secret) (fun r => CallCreate secret r.2) in
        let secret := created.1 in
        match created.2 with
        | Some err => ret (None, false, Some err)
        | None => ret (Some secret, true, None)
        end
      else ret (None, false, Some err)
  | None =>
      let secret :=
        match corev1.Data secret with
        | None => corev1.SetData secret ∅
        | Some _ => secret
        end in
      ret (Some secret, false, None)
  end.

End Accessor.

(** The error a call of the client came back with. *)
Definition callError (e : Event) : option error :=
  match e with
  | CallGet _ err => err
  | CallCreate _ err => err
  end.

(** An object store held in memory, with the behaviour of the API server
    on secrets: [Get] answers not-found for a missing name and leaves the
    object as it was; [Create] stores the object as sent and answers with
    it (a secret sent without content comes back without content), or
    refuses a name that is taken. *)
Definition memKey (n : types.NamespacedName) : string * string :=
  (types.Namespace n, types.Name n).

Definition memGet (key : types.NamespacedName) (obj : corev1.Secret)
    (cl : gmap (string * string) corev1.Secret)
    : (corev1.Secret * option error) * gmap (string * string) corev1.Secret :=
  match cl !! memKey key with
  | Some stored => ((stored, None), cl)
  | None => ((obj, Some (ErrExternal "secrets not found" true)), cl)
  end.

Definition memCreate (obj : corev1.Secret) (cl : gmap (string * string) corev1.Secret)
    : (corev1.Secret * option error) * gmap (string * string) corev1.Secret :=
  let key := (corev1.Namespace obj, corev1.Name obj) in
  match cl !! key with
  | Some _ => ((obj, Some (ErrExternal "secrets already exists" false)), cl)
  | None => ((obj, None), <[key := obj]> cl)
  end.

Definition memClient : Client (gmap (string * string) corev1.Secret) :=
  {| Get := memGet; Create := memCreate |}.

Definition kongConfig : types.NamespacedName :=
  {| types.Namespace := "kong-system"; types.Name := "kong-config" |}.

End configuration.

(** ** The custom resources under validation (pkg/apis/configuration/v1) *)

Module configurationv1.

Record SecretValueFromSource : Type := {
  Secret : string;
  Key : string
}.

Global Instance SecretValueFromSource_eq_dec : EqDecision SecretValueFromSource.
Proof. solve_decision. Defined.

(** The zero value [SecretValueFromSource{}]. *)
Definition noSecretValue : SecretValueFromSource :=
  {| Secret := EmptyString; Key := EmptyString |}.

Record ConfigSource : Type := {
  SecretValue : SecretValueFromSource
}.

Record KongConsumer : Type := {
  Username : string;
  CustomID : string;
  Credentials : list string
}.

(** [Config] is an [apiextensionsv1.JSON]: the raw bytes of a JSON
    document. *)
Record KongPlugin : Type := {
  Namespace : string;
  PluginName : string;
  Config : string;
  ConfigFrom : ConfigSource;
  RunOn : string;
  Protocols : list string
}.

End configurationv1.

(** ** The Kong Admin API client (go-kong), at its boundary *)

Module kong.

(** [kong.Configuration] is a [map[string]interface{}]; a value is kept
    as its JSON text. The validator only takes the length of the map and
    forwards it. *)
Record Plugin : Type := {
  Name : option string;
  Config : gmap string string;
  RunOn : option string;
  Protocols : list string
}.

Record Consumer : Type := {
  ID : string;
  Username : string
}.

Record Request : Type := {
  Method : string;
  Path : string;
  Body : Plugin
}.

Record Response : Type := {
  StatusCode : Z
}.

(** [*kong.Client]. [Remote] is the state of the Kong instance behind the
    Admin API. [ConsumersGet] is [Client.Consumers.Get]; it may answer a
    nil consumer with a nil error. [NewRequest] only builds the request.
    [Do] sends it; its response is read only when its error is nil. *)
Record Client (Remote : Type) : Type := {
  ConsumersGet : string -> Remote -> result (option Consumer) * Remote;
  NewRequest : string -> string -> Plugin -> result Request;
  Do : Request -> Remote -> result Response * Remote
}.
Arguments ConsumersGet {Remote} _ _ _.
Arguments NewRequest {Remote} _ _ _ _.
Arguments Do {Remote} _ _ _.

End kong.

(** ** Go's [strings.Join] *)

Module strings.

Fixpoint Join (elems : list string) (sep : string) : string :=
  match elems with
  | [] => EmptyString
  | [e] => e
  | e :: rest => e +:+ sep +:+ Join rest sep
  end.

End strings.

(** ** The admission validator (package admission) *)

Module admission.
Import configurationv1.

(** What a validation operation returns: [(valid, reason, err)]. *)
Definition Verdict : Type := bool * string * option error.

(** The calls the validator makes on its collaborators. *)
Inductive Event : Type :=
| CallConsumersGet (username : string) (answer : result (option kong.Consumer))
| CallLoggerErrorf (message : string)
| CallDo (req : kong.Request) (answer : result kong.Response).

(** The calls that go to the remote service. *)
Definition isRemote (e : Event) : bool :=
  match e with
  | CallConsumersGet _ _ => true
  | CallLoggerErrorf _ => false
  | CallDo _ _ => true
  end.

Definition keyAuthFields : list string := ["key"].
Definition basicAuthFields : list string := ["username"; "password"].
Definition hmacAuthFields : list string := ["username"; "secret"].
Definition jwtAuthFields : list string := ["algorithm"; "rsa_public_key"; "key"; "secret"].
Definition mtlsAuthFields : list string := ["subject_name"].

(** The entries of the map literal [credTypeToFields], in the order they
    are written. *)
Definition credTypeToFieldsEntries : list (string * list string) :=
  [ ("key-auth", keyAuthFields);
    ("keyauth_credential", keyAuthFields);
    ("basic-auth", basicAuthFields);
    ("basicauth_credential", basicAuthFields);
    ("hmac-auth", hmacAuthFields);
    ("hmacauth_credential", hmacAuthFields);
    ("jwt", jwtAuthFields);
    ("jwt_secret", jwtAuthFields);
    ("oauth2", ["name"; "client_id"; "client_secret"; "redirect_uris"]);
    ("acl", ["group"]);
    ("mtls-auth", mtlsAuthFields) ].

Definition credTypeToFields : gmap string (list string) :=
  list_to_map credTypeToFieldsEntries.

(** The loop of [ValidateCredential] that collects the missing fields:
    [missing] is the slice built so far. *)
Definition collectMissing (secret : corev1.Secret) (fields : list string) : list string :=
  foldl (fun missingFields field =>
           match corev1.index secret field with
           | None => missingFields ++ [field]
           | Some _ => missingFields
           end) [] fields.

Section Validator.
Context {Remote Storer : Type}.

(** The two conversions of pkg/kongstate, which is not among the
    sources: they are parameters of the validator. Neither reaches the
    remote service: the first parses bytes, the second reads the local
    store. *)
Variable RawConfigToConfiguration : string -> result (gmap string string).
Variable SecretToConfiguration :
  Storer -> SecretValueFromSource -> string -> result (gmap string string).

(** [KongHTTPValidator]; its logger is the [CallLoggerErrorf] event. *)
Record KongHTTPValidator : Type := {
  Client : kong.Client Remote;
  Store : Storer
}.

Definition ValidateConsumer (validator : KongHTTPValidator) (consumer : KongConsumer)
  : Eff Remote Event Verdict :=
  if decide (Username consumer = EmptyString) then
    ret (false, "username cannot be empty", None)
  else
    let* got := call (kong.ConsumersGet (Client validator) (Username consumer))
                     (CallConsumersGet (Username consumer)) in
    match got with
    | Err err =>
        if IsNotFound err then ret (true, EmptyString, None)
        else
          let* _ := call (fun remote => (tt, remote))
                         (fun _ => CallLoggerErrorf
                                     ("failed to fetch consumer from kong: " +:+ Error err)) in
          ret (false, EmptyString, Some (ErrWrap "fetching consumer from Kong: " err))
    | Ok c =>
        match c with
        | Some _ => ret (false, "consumer already exists", None)
        | None => ret (true, EmptyString, None)
        end
    end.

(** The first half of [ValidatePlugin], up to the assembled plugin
    descriptor: [inl] is an early return, [inr] the descriptor handed
    to the second half. *)
Definition assemblePlugin (validator : KongHTTPValidator) (k8sPlugin : KongPlugin)
  : Verdict + kong.Plugin :=
  if decide (PluginName k8sPlugin = EmptyString) then
    inl (false, "plugin name cannot be empty", None)
  else
    match RawConfigToConfiguration (Config k8sPlugin) with
    | Err err => inl (false, "could not parse plugin configuration", Some err)
    | Ok parsed =>
        let resolved : Verdict + gmap string string :=
          if decide (SecretValue (ConfigFrom k8sPlugin) <> noSecretValue) then
            if 0 <? size parsed then
              inl (false, "plugin cannot use both Config and ConfigFrom", None)
            else
              match SecretToConfiguration (Store validator)
                      (SecretValue (ConfigFrom k8sPlugin)) (Namespace k8sPlugin) with
              | Err err => inl (false, "could not load secret plugin configuration", Some err)
              | Ok config => inr config
              end
          else inr parsed in
        match resolved with
        | inl verdict => inl verdict
        | inr config =>
            inr {| kong.Name := Some (PluginName k8sPlugin);
                   kong.Config := config;
                   kong.RunOn :=
                     if decide (RunOn k8sPlugin <> EmptyString)
                     then Some (RunOn k8sPlugin) else None;
                   kong.Protocols :=
                     if 0 <? length (Protocols k8sPlugin)
                     then Protocols k8sPlugin else [] |}
        end
    end.

Definition errOf {A} (r : result A) : option error :=
  match r with
  | Ok _ => None
  | Err e => Some e
  end.

Definition ValidatePlugin (validator : KongHTTPValidator) (k8sPlugin : KongPlugin)
  : Eff Remote Event Verdict :=
  match assemblePlugin validator k8sPlugin with
  | inl verdict => ret verdict
  | inr plugin =>
      match kong.NewRequest (Client validator) "POST" "/schemas/plugins/validate" plugin with
      | Err err => ret (false, EmptyString, Some err)
      | Ok req =>
          let* answer := call (kong.Do (Client validator) req) (CallDo req) in
          match answer with
          | Err err => ret (false, Error err, None)
          | Ok resp =>
              if (kong.StatusCode resp =? 201)%Z then ret (true, EmptyString, None)
              else
                (* the second test of [err], which is nil here *)
                match errOf answer with
                | Some err => ret (false, EmptyString, Some err)
                | None => ret (true, EmptyString, None)
                end
          end
      end
  end.

Definition ValidateCredential (validator : KongHTTPValidator) (secret : corev1.Secret)
  : Eff Remote Event Verdict :=
  match corev1.index secret "kongCredType" with
  | None => ret (true, EmptyString, None)
  | Some credTypeBytes =>
      let credType := credTypeBytes in
      match credTypeToFields !! credType with
      | None => ret (false, "invalid credential type: " +:+ credType, None)
      | Some fields =>
          let missingFields := collectMissing secret fields in
          if negb (length missingFields =? 0) then
            ret (false,
                 "missing required field(s): " +:+ strings.Join missingFields ", ",
                 None)
          else ret (true, EmptyString, None)
      end
  end.

End Validator.

(** What the consumer check answers to each answer of the lookup. *)
Definition consumerVerdict (answer : result (option kong.Consumer)) : Verdict :=
  match answer with
  | Err err =>
      if IsNotFound err then (true, EmptyString, None)
      else (false, EmptyString, Some (ErrWrap "fetching consumer from Kong: " err))
  | Ok (Some _) => (false, "consumer already exists", None)
  | Ok None => (true, EmptyString, None)
  end.

(** What the schema submission's outcome is turned into. *)
Definition schemaVerdict (answer : result kong.Response) : Verdict :=
  match answer with
  | Ok _ => (true, EmptyString, None)
  | Err err => (false, Error err, None)
  end.


End admission.

(** ** The Field-Requirement Matrix, as the specification tabulates it *)

Module matrix.

(** One row per line of the table: the credential-type identifiers of
    the row and the fields they require, in order. *)
Definition rows : list (list string * list string) :=
  [ (["key-auth"; "keyauth_credential"], ["key"]);
    (["basic-auth"; "basicauth_credential"], ["username"; "password"]);
    (["hmac-auth"; "hmacauth_credential"], ["username"; "secret"]);
    (["jwt"; "jwt_secret"], ["algorithm"; "rsa_public_key"; "key"; "secret"]);
    (["oauth2"], ["name"; "client_id"; "client_secret"; "redirect_uris"]);
    (["acl"], ["group"]);
    (["mtls-auth"], ["subject_name"]) ].

Fixpoint lookupRows (table : list (list string * list string)) (credType : string)
  : option (list string) :=
  match table with
  | [] => None
  | (identifiers, fields) :: rest =>
      if bool_decide (credType ∈ identifiers) then Some fields
      else lookupRows rest credType
  end.

Definition FieldRequirementMatrix (credType : string) : option (list string) :=
  lookupRows rows credType.

(** The identifiers of the table. *)
Definition identifiers : list string := concat (rows.*1).

End matrix.

(** [needle] occurs in [hay]. *)
Definition contains (hay needle : string) : Prop :=
  exists before after, hay = before +:+ needle +:+ after.

(** ** Slices and their backing arrays *)

Module memory.

(** The address of a backing array. *)
Definition loc : Type := nat.

(** A Go slice: nil, or a window of [length] elements that starts at
    [offset] in the backing array at [array]. Copying a slice value copies
    the window, not the array: both values then share the elements. *)
Inductive slice : Type :=
| nilSlice
| mkSlice (array : loc) (offset length : nat).

Definition len (s : slice) : nat :=
  match s with
  | nilSlice => 0
  | mkSlice _ _ n => n
  end.

Section Arrays.
Context {A : Type}.

(** The elements a slice shows in a memory of arrays. *)
Definition elements (h : gmap loc (list A)) (s : slice) : list A :=
  match s with
  | nilSlice => []
  | mkSlice a off n => take n (drop off (default [] (h !! a)))
  end.

(** A slice lies within an array of the memory, as every slice of a
    running program does. *)
Definition valid (h : gmap loc (list A)) (s : slice) : Prop :=
  match s with
  | nilSlice => True
  | mkSlice a off n => exists arr, h !! a = Some arr /\ off + n <= length arr
  end.

(** [make([]T, n)]: a new array of [n] zero values, at an address that is
    not in use, and the slice of all of it. *)
Definition make (zero : A) (n : nat) (h : gmap loc (list A)) : slice * gmap loc (list A) :=
  let a := fresh (dom h) in
  (mkSlice a 0 n, <[a := replicate n zero]> h).

(** [copy(dst, src)]: the first [min(len(dst), len(src))] elements of
    [src] overwrite those of [dst]; the number copied is returned. *)
Definition copy (dst src : slice) (h : gmap loc (list A)) : nat * gmap loc (list A) :=
  let n := min (len dst) (len src) in
  match dst with
  | nilSlice => (n, h)
  | mkSlice a off _ =>
      let data := take n (elements h src) in
      (n, alter (fun arr => take off arr ++ data ++ drop (off + n) arr) a h)
  end.

(** [s[i]] for [i < len(s)]; [zero] stands in where Go panics, which the
    loops below do not reach. *)
Definition index (zero : A) (h : gmap loc (list A)) (s : slice) (i : nat) : A :=
  default zero (elements h s !! i).

(** [s[i] = v] for [i < len(s)]; where Go panics the memory is left as it
    is. *)
Definition assign (h : gmap loc (list A)) (s : slice) (i : nat) (v : A) : gmap loc (list A) :=
  match s with
  | nilSlice => h
  | mkSlice a off n =>
      if i <? n then alter (fun arr => <[off + i := v]> arr) a h else h
  end.

End Arrays.

End memory.

(** ** The generated deep copies of KongConsumer and KongConsumerList
       (railgun/apis/configuration/v1/zz_generated.deepcopy.go) *)

Module v1.
Import memory.

(** [metav1.TypeMeta]. *)
Record TypeMeta : Type := {
  Kind : string;
  APIVersion : string
}.

Section DeepCopy.

(** [metav1.ObjectMeta] and [metav1.ListMeta] belong to apimachinery, and
    so do their deep copies: [in.ObjectMeta.DeepCopyInto(&out.ObjectMeta)]
    overwrites the target with a copy made from the receiver alone, in
    memory of its own. *)
Variables ObjectMeta ListMeta : Type.
Variable ObjectMeta_DeepCopyInto : ObjectMeta -> ObjectMeta.
Variable ListMeta_DeepCopyInto : ListMeta -> ListMeta.
Variable ObjectMeta_zero : ObjectMeta.
Variable ListMeta_zero : ListMeta.

(** [KongConsumer]; [Credentials] is a [[]string]. *)
Record KongConsumer : Type := {
  TypeMeta_ : TypeMeta;
  ObjectMeta_ : ObjectMeta;
  Username : string;
  CustomID : string;
  Credentials : slice
}.

(** [KongConsumerList]; [Items] is a [[]KongConsumer]. *)
Record KongConsumerList : Type := {
  ListTypeMeta : TypeMeta;
  ListMeta_ : ListMeta;
  Items : slice
}.

(** The memory: the arrays of strings and the arrays of consumers. *)
Record Heap : Type := {
  strings : gmap loc (list string);
  consumers : gmap loc (list KongConsumer)
}.

(** [new(KongConsumer)] and [new(KongConsumerList)]: the zero values. *)
Definition KongConsumer_zero : KongConsumer :=
  {| TypeMeta_ := {| Kind := EmptyString; APIVersion := EmptyString |};
     ObjectMeta_ := ObjectMeta_zero;
     Username := EmptyString; CustomID := EmptyString;
     Credentials := nilSlice |}.

Definition KongConsumerList_zero : KongConsumerList :=
  {| ListTypeMeta := {| Kind := EmptyString; APIVersion := EmptyString |};
     ListMeta_ := ListMeta_zero;
     Items := nilSlice |}.

Definition KongConsumer_DeepCopyInto (in_ out : KongConsumer) (h : gmap loc (list string))
  : KongConsumer * gmap loc (list string) :=
  let out := in_ in
  let out := {| TypeMeta_ := TypeMeta_ in_; ObjectMeta_ := ObjectMeta_ out;
                Username := Username out; CustomID := CustomID out;
                Credentials := Credentials out |} in
  let out := {| TypeMeta_ := TypeMeta_ out;
                ObjectMeta_ := ObjectMeta_DeepCopyInto (ObjectMeta_ in_);
                Username := Username out; CustomID := CustomID out;
                Credentials := Credentials out |} in
  match Credentials in_ with
  | nilSlice => (out, h)
  | mkSlice _ _ _ =>
      let made := make EmptyString (len (Credentials in_)) h in
      let out := {| TypeMeta_ := TypeMeta_ out; ObjectMeta_ := ObjectMeta_ out;
                    Username := Username out; CustomID := CustomID out;
                    Credentials := made.1 |} in
      (out, (copy (Credentials out) (Credentials in_) made.2).2)
  end.

(** [DeepCopy]: a nil receiver gives nil. *)
Definition KongConsumer_DeepCopy (in_ : option KongConsumer) (h : gmap loc (list string))
  : option KongConsumer * gmap loc (list string) :=
  match in_ with
  | None => (None, h)
  | Some in_ =>
      let out := KongConsumer_zero in
      let copied := KongConsumer_DeepCopyInto in_ out h in
      (Some copied.1, copied.2)
  end.

(** The loop over the items, [for i := range items], which copies the
    element [i] of the receiver's slice into the element [i] of the
    target's slice by [DeepCopyInto]; [indices] are the indices left. *)
Fixpoint copyItems (indices : list nat) (in_ out : slice) (h : Heap) : Heap :=
  match indices with
  | [] => h
  | i :: rest =>
      let copied := KongConsumer_DeepCopyInto
                      (index KongConsumer_zero (consumers h) in_ i)
                      (index KongConsumer_zero (consumers h) out i)
                      (strings h) in
      copyItems rest in_ out
        {| strings := copied.2; consumers := assign (consumers h) out i copied.1 |}
  end.

Definition KongConsumerList_DeepCopyInto (in_ out : KongConsumerList) (h : Heap)
  : KongConsumerList * Heap :=
  let out := in_ in
  let out := {| ListTypeMeta := ListTypeMeta in_; ListMeta_ := ListMeta_ out;
                Items := Items out |} in
  let out := {| ListTypeMeta := ListTypeMeta out;
                ListMeta_ := ListMeta_DeepCopyInto (ListMeta_ in_);
                Items := Items out |} in
  match Items in_ with
  | nilSlice => (out, h)
  | mkSlice _ _ _ =>
      let made := make KongConsumer_zero (len (Items in_)) (consumers h) in
      let out := {| ListTypeMeta := ListTypeMeta out; ListMeta_ := ListMeta_ out;
                    Items := made.1 |} in
      (out, copyItems (seq 0 (len (Items in_))) (Items in_) (Items out)
              {| strings := strings h; consumers := made.2 |})
  end.

Definition KongConsumerList_DeepCopy (in_ : option KongConsumerList) (h : Heap)
  : option KongConsumerList * Heap :=
  match in_ with
  | None => (None, h)
  | Some in_ =>
      let out := KongConsumerList_zero in
      let copied := KongConsumerList_DeepCopyInto in_ out h in
      (Some copied.1, copied.2)
  end.

(** A [runtime.Object]: the nil interface is [None]. *)
Inductive Object : Type :=
| ObjectKongConsumer (c : KongConsumer)
| ObjectKongConsumerList (l : KongConsumerList).

Definition KongConsumer_DeepCopyObject (in_ : option KongConsumer) (h : gmap loc (list string))
  : option Object * gmap loc (list string) :=
  let copied := KongConsumer_DeepCopy in_ h in
  match copied.1 with
  | Some c => (Some (ObjectKongConsumer c), copied.2)
  | None => (None, copied.2)
  end.

Definition KongConsumerList_DeepCopyObject (in_ : option KongConsumerList) (h : Heap)
  : option Object * Heap :=
  let copied := KongConsumerList_DeepCopy in_ h in
  match copied.1 with
  | Some c => (Some (ObjectKongConsumerList c), copied.2)
  | None => (None, copied.2)
  end.

(** What a consumer shows: its fields, with the elements of
    [Credentials] read from the memory. *)
Definition credentials (h : gmap loc (list string)) (c : KongConsumer) : list string :=
  elements h (Credentials c).

(** [c'] in the memory [h'] is a copy of [c] in the memory [h]: the same
    type meta, username and custom id, the deep copy of the object meta,
    and credentials that lie in [h'], show the same elements and are nil
    exactly when those of [c] are. *)
Definition copyOf (h h' : gmap loc (list string)) (c c' : KongConsumer) : Prop :=
  TypeMeta_ c' = TypeMeta_ c /\
  ObjectMeta_ c' = ObjectMeta_DeepCopyInto (ObjectMeta_ c) /\
  Username c' = Username c /\
  CustomID c' = CustomID c /\
  credentials h' c' = credentials h c /\
  valid h' (Credentials c') /\
  (Credentials c' = nilSlice <-> Credentials c = nilSlice).

End DeepCopy.

Arguments TypeMeta_ {ObjectMeta} _.
Arguments ObjectMeta_ {ObjectMeta} _.
Arguments Username {ObjectMeta} _.
Arguments CustomID {ObjectMeta} _.
Arguments Credentials {ObjectMeta} _.
Arguments ListTypeMeta {ListMeta} _.
Arguments ListMeta_ {ListMeta} _.
Arguments Items {ListMeta} _.
Arguments strings {ObjectMeta} _.
Arguments consumers {ObjectMeta} _.
Arguments credentials {ObjectMeta} _ _.

End v1.

(** ** Test doubles for the collaborators *)

Module doubles.

(** A manager that remembers which controllers were set up and serves a
    list of the API resources the cluster has. *)
Record TestManager : Type := {
  apiResources : list string;
  installed : list string
}.

Global Instance TestManager_Manager : manager.Manager TestManager (list string) :=
  {| manager.GetAPIReader := apiResources |}.

Definition reconciler (name : string) : manager.Controller TestManager :=
  {| manager.TypeName := name;
     manager.SetupWithManager := fun mgr =>
       (None, {| apiResources := apiResources mgr; installed := installed mgr ++ [name] |}) |}.

Definition hasIngressV1 : manager.AutoHandler (list string) :=
  fun reader => bool_decide ("networking.k8s.io/v1" ∈ reader).

Definition ingressDef (handler : option (manager.AutoHandler (list string)))
  : manager.ControllerDef TestManager (list string) :=
  {| manager.IsEnabled := manager.IngressNetV1Enabled;
     manager.AutoHandler_ := handler;
     manager.Controller_ := reconciler "*configuration.NetV1IngressReconciler" |}.

Definition configWith (ingress : util.EnablementStatus) : manager.Config :=
  {| manager.KongStateEnabled := util.EnablementStatusEnabled;
     manager.IngressExtV1beta1Enabled := util.EnablementStatusDisabled;
     manager.IngressNetV1beta1Enabled := util.EnablementStatusDisabled;
     manager.IngressNetV1Enabled := ingress;
     manager.UDPIngressEnabled := util.EnablementStatusDisabled;
     manager.TCPIngressEnabled := util.EnablementStatusDisabled;
     manager.KongIngressEnabled := util.EnablementStatusEnabled;
     manager.KongClusterPluginEnabled := util.EnablementStatusDisabled;
     manager.KongPluginEnabled := util.EnablementStatusDisabled;
     manager.KongConsumerEnabled := util.EnablementStatusDisabled;
     manager.ServiceEnabled := util.EnablementStatusEnabled |}.

Definition oldCluster : TestManager :=
  {| apiResources := ["networking.k8s.io/v1beta1"]; installed := [] |}.

Definition newCluster : TestManager :=
  {| apiResources := ["networking.k8s.io/v1"]; installed := [] |}.

(** A Kong instance that knows the consumers in its state and answers
    every schema validation with [schemaAnswer]. *)
Definition testKong (schemaAnswer : result kong.Response) : kong.Client (list string) :=
  {| kong.ConsumersGet := fun username remote =>
       if bool_decide (username ∈ remote)
       then (Ok (Some {| kong.ID := username; kong.Username := username |}), remote)
       else (Err (ErrExternal "HTTP status 404 (message: Not found)" true), remote);
     kong.NewRequest := fun method path body =>
       Ok {| kong.Method := method; kong.Path := path; kong.Body := body |};
     kong.Do := fun _ remote => (schemaAnswer, remote) |}.

(** A Kong instance that cannot be reached. *)
Definition connectionRefused : error :=
  ErrExternal "making HTTP request: connection refused" false.

Definition unreachableKong : kong.Client (list string) :=
  {| kong.ConsumersGet := fun _ remote => (Err connectionRefused, remote);
     kong.NewRequest := fun method path body =>
       Ok {| kong.Method := method; kong.Path := path; kong.Body := body |};
     kong.Do := fun _ remote => (Err connectionRefused, remote) |}.

(** Stand-ins for the two conversions of kongstate: the raw bytes become
    a one-entry configuration unless they are empty or the empty object;
    a secret reference is looked up in a store of configurations. *)
Definition rawConfig (raw : string) : result (gmap string string) :=
  if decide (raw = EmptyString) then Ok ∅
  else if decide (raw = "{}") then Ok ∅
  else Ok {[ "raw" := raw ]}.

Definition secretConfig (store : gmap string (gmap string string))
    (ref : configurationv1.SecretValueFromSource) (namespace : string)
  : result (gmap string string) :=
  match store !! configurationv1.Secret ref with
  | Some config => Ok config
  | None => Err (ErrExternal "secret not found" true)
  end.

Definition validatorOf (client : kong.Client (list string))
  : admission.KongHTTPValidator (Remote := list string) (Storer := gmap string (gmap string string)) :=
  {| admission.Client := client; admission.Store := ∅ |}.

Definition noSecret : configurationv1.ConfigSource :=
  {| configurationv1.SecretValue :=
       {| configurationv1.Secret := EmptyString; configurationv1.Key := EmptyString |} |}.

Definition someSecret : configurationv1.ConfigSource :=
  {| configurationv1.SecretValue :=
       {| configurationv1.Secret := "rate-limit-conf"; configurationv1.Key := "config" |} |}.

Definition pluginOf (name raw : string) (from : configurationv1.ConfigSource)
  : configurationv1.KongPlugin :=
  {| configurationv1.Namespace := "default";
     configurationv1.PluginName := name;
     configurationv1.Config := raw;
     configurationv1.ConfigFrom := from;
     configurationv1.RunOn := EmptyString;
     configurationv1.Protocols := [] |}.

Definition consumerOf (username : string) : configurationv1.KongConsumer :=
  {| configurationv1.Username := username;
     configurationv1.CustomID := EmptyString;
     configurationv1.Credentials := [] |}.

Definition secretOf (data : list (string * string)) : corev1.Secret :=
  {| corev1.Name := "credential"; corev1.Namespace := "default";
     corev1.Data := Some (list_to_map data) |}.

(** A reconciler whose setup fails. *)
Definition schemeError : error := ErrExternal "no kind is registered for the type" false.

Definition broken (name : string) : manager.Controller TestManager :=
  {| manager.TypeName := name;
     manager.SetupWithManager := fun mgr => (Some schemeError, mgr) |}.

Definition reconcilers : manager.Reconcilers (Mgr := TestManager) :=
  {| manager.CoreV1ServiceReconciler := reconciler "*corev1.CoreV1ServiceReconciler";
     manager.CoreV1EndpointsReconciler := reconciler "*corev1.CoreV1EndpointsReconciler";
     manager.NetV1IngressReconciler := reconciler "*configuration.NetV1IngressReconciler";
     manager.NetV1Beta1IngressReconciler := reconciler "*configuration.NetV1Beta1IngressReconciler";
     manager.ExtV1Beta1IngressReconciler := reconciler "*configuration.ExtV1Beta1IngressReconciler";
     manager.KongV1Alpha1UDPIngressReconciler :=
       reconciler "*configuration.KongV1Alpha1UDPIngressReconciler";
     manager.KongV1Beta1TCPIngressReconciler :=
       reconciler "*configuration.KongV1Beta1TCPIngressReconciler";
     manager.KongV1KongIngressReconciler := reconciler "*configuration.KongV1KongIngressReconciler";
     manager.KongV1KongClusterPluginReconciler :=
       reconciler "*configuration.KongV1KongClusterPluginReconciler";
     manager.KongV1KongPluginReconciler := reconciler "*configuration.KongV1KongPluginReconciler";
     manager.KongV1KongConsumerReconciler :=
       reconciler "*configuration.KongV1KongConsumerReconciler" |}.

(** Three controllers, the second of which fails to set up. *)
Definition threeControllers : list (manager.ControllerDef TestManager (list string)) :=
  [ manager.def manager.ServiceEnabled (reconciler "*corev1.CoreV1ServiceReconciler");
    manager.def manager.IngressNetV1Enabled (broken "*configuration.NetV1IngressReconciler");
    manager.def manager.KongIngressEnabled (reconciler "*configuration.KongV1KongIngressReconciler") ].

(** Two controllers, the first disabled and the second enabled under
    [configWith]. *)
Definition twoControllers : list (manager.ControllerDef TestManager (list string)) :=
  [ manager.def manager.UDPIngressEnabled
      (reconciler "*configuration.KongV1Alpha1UDPIngressReconciler");
    manager.def manager.KongIngressEnabled
      (reconciler "*configuration.KongV1KongIngressReconciler") ].

(** Two controllers of one type name: the first is disabled under
    [configWith] and would fail if it were set up, the second is enabled. *)
Definition sameTypeControllers : list (manager.ControllerDef TestManager (list string)) :=
  [ manager.def manager.UDPIngressEnabled
      (broken "*configuration.KongV1KongIngressReconciler");
    manager.def manager.KongIngressEnabled
      (reconciler "*configuration.KongV1KongIngressReconciler") ].

(** A client whose [Get] hands the not-found of the API server back
    wrapped, and whose [Create] stores the object. *)
Definition wrappingClient : configuration.Client (gmap (string * string) corev1.Secret) :=
  {| configuration.Get := fun key obj cl =>
       ((obj, Some (ErrWrap "reading through the cache: "
                      (ErrExternal "secrets not found" true))), cl);
     configuration.Create := configuration.memCreate |}.

(** A cluster that holds the config secret, with and without content. *)
Definition storedConfig (data : option (gmap string string)) : corev1.Secret :=
  {| corev1.Name := "kong-config"; corev1.Namespace := "kong-system"; corev1.Data := data |}.

Definition clusterWith (data : option (gmap string string))
  : gmap (string * string) corev1.Secret :=
  {[ ("kong-system", "kong-config") := storedConfig data ]}.

(** Consumers in memory. Object meta is kept as a list of labels and list
    meta as a resource version, each copied as a value. The array of
    strings at address 0 holds three strings, of which alice's
    credentials are the last two; bob has none. *)
Definition stringArrays : gmap memory.loc (list string) :=
  {[ 0 := ["unused"; "alice-key-auth"; "alice-basic-auth"] ]}.

Definition consumerAlice : v1.KongConsumer (list (string * string)) :=
  {| v1.TypeMeta_ := {| v1.Kind := "KongConsumer";
                        v1.APIVersion := "configuration.konghq.com/v1" |};
     v1.ObjectMeta_ := [("app", "demo")];
     v1.Username := "alice"; v1.CustomID := "42";
     v1.Credentials := memory.mkSlice 0 1 2 |}.

Definition consumerBob : v1.KongConsumer (list (string * string)) :=
  {| v1.TypeMeta_ := {| v1.Kind := "KongConsumer";
                        v1.APIVersion := "configuration.konghq.com/v1" |};
     v1.ObjectMeta_ := [];
     v1.Username := "bob"; v1.CustomID := EmptyString;
     v1.Credentials := memory.nilSlice |}.

Definition consumerHeap : v1.Heap (list (string * string)) :=
  {| v1.strings := stringArrays;
     v1.consumers := {[ 0 := [consumerAlice; consumerBob] ]} |}.

Definition consumerList : v1.KongConsumerList string :=
  {| v1.ListTypeMeta := {| v1.Kind := "KongConsumerList";
                           v1.APIVersion := "configuration.konghq.com/v1" |};
     v1.ListMeta_ := "4711";
     v1.Items := memory.mkSlice 0 0 2 |}.

End doubles.

(** * Properties *)

(** ** Enablement resolution *)

Section ResolverFacts.
Import util manager.
Context {Mgr Reader : Type} `{!Manager Mgr Reader}.
Implicit Types (c : ControllerDef Mgr Reader) (cfg : Config) (mgr : Mgr).

(** The shared install step: one call of [SetupWithManager], whose error
    and whose effect on the manager are handed back untouched. *)
Lemma setup_run c mgr :
  setup c mgr =
    ((SetupWithManager (Controller_ c) mgr).1,
     (SetupWithManager (Controller_ c) mgr).2,
     [CallSetupWithManager (Name c) (SetupWithManager (Controller_ c) mgr).1]).
Proof.
  unfold setup, call. destruct (SetupWithManager (Controller_ c) mgr); reflexivity.
Qed.

Lemma resolve_disabled c cfg mgr :
  IsEnabled c cfg = EnablementStatusDisabled ->
  MaybeSetupWithManager c cfg mgr = (None, mgr, []).
Proof. intros E. unfold MaybeSetupWithManager. rewrite E. reflexivity. Qed.

Lemma resolve_enabled c cfg mgr :
  IsEnabled c cfg = EnablementStatusEnabled ->
  MaybeSetupWithManager c cfg mgr = setup c mgr.
Proof. intros E. unfold MaybeSetupWithManager. rewrite E. reflexivity. Qed.

Lemma resolve_auto_nil c cfg mgr :
  IsEnabled c cfg = EnablementStatusAuto ->
  AutoHandler_ c = None ->
  MaybeSetupWithManager c cfg mgr = (Some (ErrAutoNotSupported (Name c)), mgr, []).
Proof. intros E H. unfold MaybeSetupWithManager. rewrite E, H. reflexivity. Qed.

Lemma resolve_auto_false c cfg mgr handler :
  IsEnabled c cfg = EnablementStatusAuto ->
  AutoHandler_ c = Some handler ->
  handler (GetAPIReader mgr) = false ->
  MaybeSetupWithManager c cfg mgr = (None, mgr, [CallGetAPIReader; CallAutoHandler false]).
Proof.
  intros E H F. unfold MaybeSetupWithManager. rewrite E, H.
  unfold bind, call, ret. rewrite F. reflexivity.
Qed.

Lemma resolve_auto_true c cfg mgr handler :
  IsEnabled c cfg = EnablementStatusAuto ->
  AutoHandler_ c = Some handler ->
  handler (GetAPIReader mgr) = true ->
  MaybeSetupWithManager c cfg mgr =
    ((setup c mgr).1.1, (setup c mgr).1.2,
     [CallGetAPIReader; CallAutoHandler true] ++ (setup c mgr).2).
Proof.
  intros E H T. unfold MaybeSetupWithManager. rewrite E, H.
  unfold bind, call, ret. rewrite T. simpl.
  destruct (setup c mgr) as [[v s] t]. reflexivity.
Qed.

(** C1. [MaybeSetupWithManager] resolves a [ControllerDef] as follows.
    Disabled: it returns nil and calls neither the AutoHandler nor
    [SetupWithManager]. Auto with a nil AutoHandler: it returns an error
    and never calls [SetupWithManager]. Auto with an AutoHandler that
    answers false: it returns nil without calling [SetupWithManager].
    Auto with an AutoHandler that answers true, or Enabled: it calls
    [SetupWithManager] exactly once, on the manager it was given, and
    returns that call's result. *)
Theorem MaybeSetupWithManager_resolution c cfg mgr :
  let run := MaybeSetupWithManager c cfg mgr in
  (IsEnabled c cfg = EnablementStatusDisabled ->
     value run = None /\
     filter isAutoHandler (trace run) = [] /\
     filter isSetup (trace run) = []) /\
  (IsEnabled c cfg = EnablementStatusAuto -> AutoHandler_ c = None ->
     (exists err, value run = Some err) /\
     filter isSetup (trace run) = []) /\
  (forall handler,
     IsEnabled c cfg = EnablementStatusAuto -> AutoHandler_ c = Some handler ->
     handler (GetAPIReader mgr) = false ->
     value run = None /\
     filter isSetup (trace run) = []) /\
  ((IsEnabled c cfg = EnablementStatusAuto /\
    exists handler, AutoHandler_ c = Some handler /\ handler (GetAPIReader mgr) = true)
   \/ IsEnabled c cfg = EnablementStatusEnabled ->
     value run = (SetupWithManager (Controller_ c) mgr).1 /\
     final run = (SetupWithManager (Controller_ c) mgr).2 /\
     filter isSetup (trace run) =
       [CallSetupWithManager (Name c) (SetupWithManager (Controller_ c) mgr).1]).
Proof.
  cbv zeta. split; [| split; [| split]].
  - intros E. rewrite (resolve_disabled _ _ _ E). repeat split.
  - intros E N. rewrite (resolve_auto_nil _ _ _ E N). split; [eexists|]; reflexivity.
  - intros handler E H F. rewrite (resolve_auto_false _ _ _ _ E H F). split; reflexivity.
  - intros [[E (handler & H & T)] | E];
      [ rewrite (resolve_auto_true _ _ _ _ E H T) | rewrite (resolve_enabled _ _ _ E) ];
      rewrite setup_run; repeat split.
Qed.

End ResolverFacts.

(** The four outcomes on the ingress controller: disabled; auto without a
    handler; auto on a cluster without the API (skipped); auto on a cluster
    with it and plainly enabled (installed once). *)
Lemma MaybeSetupWithManager_resolution_witness :
  let disabled := manager.MaybeSetupWithManager (doubles.ingressDef (Some doubles.hasIngressV1))
                    (doubles.configWith util.EnablementStatusDisabled) doubles.newCluster in
  let unsupported := manager.MaybeSetupWithManager (doubles.ingressDef None)
                    (doubles.configWith util.EnablementStatusAuto) doubles.newCluster in
  let skipped := manager.MaybeSetupWithManager (doubles.ingressDef (Some doubles.hasIngressV1))
                    (doubles.configWith util.EnablementStatusAuto) doubles.oldCluster in
  let detected := manager.MaybeSetupWithManager (doubles.ingressDef (Some doubles.hasIngressV1))
                    (doubles.configWith util.EnablementStatusAuto) doubles.newCluster in
  let enabled := manager.MaybeSetupWithManager (doubles.ingressDef None)
                    (doubles.configWith util.EnablementStatusEnabled) doubles.oldCluster in
  (value disabled = None /\ filter manager.isAutoHandler (trace disabled) = []
     /\ filter manager.isSetup (trace disabled) = []) /\
  ((exists err, value unsupported = Some err) /\ filter manager.isSetup (trace unsupported) = []) /\
  (value skipped = None /\ filter manager.isSetup (trace skipped) = []) /\
  (value detected = None /\
   doubles.installed (final detected) = ["*configuration.NetV1IngressReconciler"] /\
   length (filter manager.isSetup (trace detected)) = 1) /\
  (value enabled = None /\
   doubles.installed (final enabled) = ["*configuration.NetV1IngressReconciler"] /\
   length (filter manager.isSetup (trace enabled)) = 1).
Proof.
  cbv zeta. split; [| split; [| split; [| split]]].
  - apply (MaybeSetupWithManager_resolution (doubles.ingressDef (Some doubles.hasIngressV1))
             (doubles.configWith util.EnablementStatusDisabled) doubles.newCluster).
    reflexivity.
  - apply (MaybeSetupWithManager_resolution (doubles.ingressDef None)
             (doubles.configWith util.EnablementStatusAuto) doubles.newCluster);
      reflexivity.
  - apply (MaybeSetupWithManager_resolution (doubles.ingressDef (Some doubles.hasIngressV1))
             (doubles.configWith util.EnablementStatusAuto) doubles.oldCluster)
      with (handler := doubles.hasIngressV1); reflexivity.
  - destruct (MaybeSetupWithManager_resolution (doubles.ingressDef (Some doubles.hasIngressV1))
             (doubles.configWith util.EnablementStatusAuto) doubles.newCluster)
      as (_ & _ & _ & install).
    destruct install as (V & F & T).
    + left. split; [reflexivity|]. exists doubles.hasIngressV1. split; reflexivity.
    + rewrite V, F, T. repeat split.
  - destruct (MaybeSetupWithManager_resolution (doubles.ingressDef None)
             (doubles.configWith util.EnablementStatusEnabled) doubles.oldCluster)
      as (_ & _ & _ & install).
    destruct install as (V & F & T).
    + right. reflexivity.
    + rewrite V, F, T. repeat split.
Defined.

(** ** The config secret accessor *)

Section AccessorFacts.
Import configuration.
Context {Cluster : Type}.
Implicit Types (c : Client Cluster) (cl : Cluster).

(** Whatever the client answers, the accessor returns one of: the record
    that was read, with its content mapping made non-nil; the record the
    create call handed back, as it is; or an error with no record. *)
Lemma getOrCreateConfigSecret_cases c nsn cl :
  let run := getOrCreateConfigSecret c nsn cl in
  (exists secret, value run = (Some secret, false, None) /\ corev1.Data secret <> None) \/
  (exists got err cl',
     Get c nsn corev1.new cl = ((got, Some err), cl') /\ apierrors.IsNotFound err = true /\
     value run = (Some (Create c (corev1.SetNamespace (corev1.SetName got (types.Name nsn))
                                    (types.Namespace nsn)) cl').1.1, true, None)) \/
  (exists err, value run = (None, false, Some err)).
Proof.
  cbv zeta. unfold getOrCreateConfigSecret, bind, call.
  destruct (Get c nsn corev1.new cl) as [[got [err|]] cl'] eqn:G; simpl.
  - destruct (apierrors.IsNotFound err) eqn:NF; simpl.
    + destruct (Create c _ cl') as [[made [err'|]] cl''] eqn:C; simpl.
      * right; right. eexists; reflexivity.
      * right; left. exists got, err, cl'. split; [reflexivity|]. split; [assumption|].
        rewrite C. reflexivity.
    + right; right. eexists; reflexivity.
  - left. eexists. split; [reflexivity|].
    destruct (corev1.Data got) eqn:D; simpl; congruence.
Qed.

(** On the path where the record already existed ([created = false]) the
    returned content mapping is never nil. *)
Lemma getOrCreateConfigSecret_existing_Data c nsn cl secret :
  value (getOrCreateConfigSecret c nsn cl) = (Some secret, false, None) ->
  corev1.Data secret <> None.
Proof.
  intros V.
  destruct (getOrCreateConfigSecret_cases c nsn cl) as [(s & E & D) | [(g & m & cl' & _ & _ & E) | (e & E)]];
    rewrite E in V; inversion V; subst; assumption.
Qed.

End AccessorFacts.

(** C2. On a cluster that does not hold the config secret, the accessor
    creates it and returns it with [created = true] and a nil error, and
    the returned secret's content mapping is nil: the normalisation that
    the read path applies is not applied on the create path. *)
Theorem getOrCreateConfigSecret_created_Data_nil :
  let run := configuration.getOrCreateConfigSecret configuration.memClient
               configuration.kongConfig ∅ in
  value run =
    (Some {| corev1.Name := "kong-config"; corev1.Namespace := "kong-system";
             corev1.Data := None |}, true, None) /\
  trace run =
    [ configuration.CallGet configuration.kongConfig
        (Some (ErrExternal "secrets not found" true));
      configuration.CallCreate
        {| corev1.Name := "kong-config"; corev1.Namespace := "kong-system";
           corev1.Data := None |} None ].
Proof. cbv zeta. split; reflexivity. Qed.

(** ** The admission validator: consumers and plugins *)

Section ValidatorFacts.
Import configurationv1 admission.
Context {Remote Storer : Type}.
Variable RawConfigToConfiguration : string -> result (gmap string string).
Variable SecretToConfiguration :
  Storer -> SecretValueFromSource -> string -> result (gmap string string).
Implicit Types (validator : KongHTTPValidator (Remote := Remote) (Storer := Storer))
  (consumer : KongConsumer) (k8sPlugin : KongPlugin) (remote : Remote).

Local Abbreviation ValidatePlugin := (ValidatePlugin RawConfigToConfiguration SecretToConfiguration).
Local Abbreviation assemblePlugin := (assemblePlugin RawConfigToConfiguration SecretToConfiguration).

Lemma ValidateConsumer_empty validator consumer remote :
  Username consumer = EmptyString ->
  ValidateConsumer validator consumer remote =
    ((false, "username cannot be empty", None), remote, []).
Proof.
  intros E. unfold ValidateConsumer. destruct (decide _); [reflexivity | contradiction].
Qed.

Lemma ValidateConsumer_lookup validator consumer remote :
  Username consumer <> EmptyString ->
  let answer := (kong.ConsumersGet (Client validator) (Username consumer) remote).1 in
  let run := ValidateConsumer validator consumer remote in
  value run = consumerVerdict answer /\
  final run = (kong.ConsumersGet (Client validator) (Username consumer) remote).2 /\
  filter isRemote (trace run) = [CallConsumersGet (Username consumer) answer].
Proof.
  intros NE. cbv zeta. unfold ValidateConsumer.
  destruct (decide _); [contradiction|].
  unfold bind, call, ret.
  destruct (kong.ConsumersGet _ _ remote) as [[c | err] remote']; simpl.
  - destruct c; repeat split.
  - destruct (IsNotFound err); repeat split.
Qed.

(** The three ways [ValidatePlugin] ends, by how far it gets. *)
Lemma ValidatePlugin_early validator k8sPlugin remote verdict :
  assemblePlugin validator k8sPlugin = inl verdict ->
  ValidatePlugin validator k8sPlugin remote = (verdict, remote, []).
Proof. intros A. unfold admission.ValidatePlugin. rewrite A. reflexivity. Qed.

Lemma ValidatePlugin_no_request validator k8sPlugin remote plugin err :
  assemblePlugin validator k8sPlugin = inr plugin ->
  kong.NewRequest (Client validator) "POST" "/schemas/plugins/validate" plugin = Err err ->
  ValidatePlugin validator k8sPlugin remote = ((false, EmptyString, Some err), remote, []).
Proof. intros A N. unfold admission.ValidatePlugin. rewrite A, N. reflexivity. Qed.

Lemma ValidatePlugin_submitted validator k8sPlugin remote plugin req :
  assemblePlugin validator k8sPlugin = inr plugin ->
  kong.NewRequest (Client validator) "POST" "/schemas/plugins/validate" plugin = Ok req ->
  ValidatePlugin validator k8sPlugin remote =
    (schemaVerdict (kong.Do (Client validator) req remote).1,
     (kong.Do (Client validator) req remote).2,
     [CallDo req (kong.Do (Client validator) req remote).1]).
Proof.
  intros A N. unfold admission.ValidatePlugin. rewrite A, N.
  unfold bind, call, ret.
  destruct (kong.Do _ req remote) as [[resp | err] remote']; simpl; [|reflexivity].
  destruct (kong.StatusCode resp =? 201)%Z; reflexivity.
Qed.

(** A run of [ValidatePlugin] either makes no call at all, or makes the
    one schema submission and answers by its outcome. *)
Lemma ValidatePlugin_cases validator k8sPlugin remote :
  let run := ValidatePlugin validator k8sPlugin remote in
  (trace run = [] /\ final run = remote /\
     (assemblePlugin validator k8sPlugin = inl (value run) \/
      exists err, value run = (false, EmptyString, Some err))) \/
  (exists req answer,
     trace run = [CallDo req answer] /\ value run = schemaVerdict answer).
Proof.
  cbv zeta. destruct (assemblePlugin validator k8sPlugin) as [verdict | plugin] eqn:A.
  - left. rewrite (ValidatePlugin_early _ _ _ _ A). repeat split. left. reflexivity.
  - destruct (kong.NewRequest (Client validator) "POST" "/schemas/plugins/validate" plugin)
      as [req | err] eqn:N.
    + right. rewrite (ValidatePlugin_submitted _ _ _ _ _ A N). eauto.
    + left. rewrite (ValidatePlugin_no_request _ _ _ _ _ A N). repeat split. right. eauto.
Qed.

(** An early return of the first half never carries an empty reason with
    a nil error, and is never a verdict of validity. *)
Lemma assemblePlugin_early validator k8sPlugin verdict :
  assemblePlugin validator k8sPlugin = inl verdict ->
  verdict.1.1 = false /\ (verdict.2 = None -> verdict.1.2 <> EmptyString).
Proof.
  unfold admission.assemblePlugin.
  destruct (decide (PluginName k8sPlugin = EmptyString)).
  { intros [= <-]. split; [reflexivity | discriminate]. }
  destruct (RawConfigToConfiguration (Config k8sPlugin)) as [parsed | err].
  2: { intros [= <-]. split; [reflexivity | discriminate]. }
  destruct (decide (SecretValue (ConfigFrom k8sPlugin) <> _)); [| discriminate].
  destruct (0 <? size parsed).
  { intros [= <-]. split; [reflexivity | discriminate]. }
  destruct (SecretToConfiguration _ _ _); [discriminate|].
  intros [= <-]. split; [reflexivity | discriminate].
Qed.

End ValidatorFacts.

Section PluginClaims.
Import configurationv1 admission.
Context {Remote Storer : Type}.
Variable RawConfigToConfiguration : string -> result (gmap string string).
Variable SecretToConfiguration :
  Storer -> SecretValueFromSource -> string -> result (gmap string string).
Implicit Types (validator : KongHTTPValidator (Remote := Remote) (Storer := Storer))
  (consumer : KongConsumer) (k8sPlugin : KongPlugin) (remote : Remote).

Local Abbreviation ValidatePlugin := (ValidatePlugin RawConfigToConfiguration SecretToConfiguration).
Local Abbreviation assemblePlugin := (assemblePlugin RawConfigToConfiguration SecretToConfiguration).

(** C3, amended. A plugin whose raw config parses to a non-empty
    configuration and whose secret reference is set is rejected with a nil
    error and without any call to a collaborator. With a non-empty plugin
    name the reason is "plugin cannot use both Config and ConfigFrom"; with
    an empty plugin name the earlier check answers first, with the reason
    "plugin name cannot be empty". *)
Theorem ValidatePlugin_both_sources validator k8sPlugin remote parsed :
  RawConfigToConfiguration (Config k8sPlugin) = Ok parsed ->
  0 < size parsed ->
  SecretValue (ConfigFrom k8sPlugin) <> noSecretValue ->
  let run := ValidatePlugin validator k8sPlugin remote in
  (value run).1.1 = false /\ (value run).2 = None /\
  trace run = [] /\ final run = remote /\
  (PluginName k8sPlugin <> EmptyString ->
     value run = (false, "plugin cannot use both Config and ConfigFrom", None)) /\
  (PluginName k8sPlugin = EmptyString ->
     value run = (false, "plugin name cannot be empty", None)).
Proof.
  intros P S F. cbv zeta.
  assert (A : assemblePlugin validator k8sPlugin =
              inl (if decide (PluginName k8sPlugin = EmptyString)
                   then (false, "plugin name cannot be empty", None)
                   else (false, "plugin cannot use both Config and ConfigFrom", None))).
  { unfold admission.assemblePlugin. destruct (decide (PluginName k8sPlugin = _)); [reflexivity|].
    rewrite P. destruct (decide (SecretValue (ConfigFrom k8sPlugin) <> _)) as [|N].
    - apply Nat.ltb_lt in S. rewrite S. reflexivity.
    - exfalso. apply N. exact F. }
  rewrite (ValidatePlugin_early _ _ _ _ _ _ A).
  destruct (decide (PluginName k8sPlugin = EmptyString)); repeat split; intros; congruence.
Qed.

(** C4. When the schema-validation submission completes without a
    transport error, [ValidatePlugin] returns [(true, "", nil)], whatever
    the status code of the response, 201 or not. *)
Theorem ValidatePlugin_completed_submission validator k8sPlugin remote req resp :
  CallDo req (Ok resp) ∈ trace (ValidatePlugin validator k8sPlugin remote) ->
  value (ValidatePlugin validator k8sPlugin remote) = (true, EmptyString, None).
Proof.
  intros H.
  destruct (ValidatePlugin_cases RawConfigToConfiguration SecretToConfiguration
              validator k8sPlugin remote) as [(T & _) | (req' & answer & T & V)];
    rewrite T in H.
  - inversion H.
  - apply list_elem_of_singleton in H. injection H as <- <-. rewrite V. reflexivity.
Qed.

(** C5. When the schema-validation submission fails with a transport
    error, [ValidatePlugin] returns [valid = false] with the error's text
    as the reason and a nil error; the consumer path, by contrast, turns a
    failed lookup that is not a not-found into a non-nil error. *)
Theorem ValidatePlugin_transport_error validator remote :
  (forall k8sPlugin req err,
     CallDo req (Err err) ∈ trace (ValidatePlugin validator k8sPlugin remote) ->
     value (ValidatePlugin validator k8sPlugin remote) = (false, Error err, None)) /\
  (forall consumer err,
     CallConsumersGet (Username consumer) (Err err)
       ∈ trace (ValidateConsumer validator consumer remote) ->
     IsNotFound err = false ->
     value (ValidateConsumer validator consumer remote) =
       (false, EmptyString, Some (ErrWrap "fetching consumer from Kong: " err))).
Proof.
  split.
  - intros k8sPlugin req err H.
    destruct (ValidatePlugin_cases RawConfigToConfiguration SecretToConfiguration
                validator k8sPlugin remote) as [(T & _) | (req' & answer & T & V)];
      rewrite T in H.
    + inversion H.
    + apply list_elem_of_singleton in H. injection H as <- <-. rewrite V. reflexivity.
  - intros consumer err H NF.
    destruct (decide (Username consumer = EmptyString)) as [E|NE].
    { rewrite (ValidateConsumer_empty _ _ _ E) in H. inversion H. }
    destruct (ValidateConsumer_lookup validator consumer remote NE) as (V & _ & T).
    assert (R : CallConsumersGet (Username consumer) (Err err)
                  ∈ filter isRemote (trace (ValidateConsumer validator consumer remote))).
    { apply list_elem_of_filter. split; [reflexivity | exact H]. }
    rewrite T in R. apply list_elem_of_singleton in R. injection R as R.
    rewrite V, <- R. simpl. rewrite NF. reflexivity.
Qed.

(** C6. [ValidateConsumer] rejects an empty username with the reason
    "username cannot be empty" and without any call. Otherwise it looks
    the username up remotely, once, and answers: valid when the lookup
    reports not-found; "consumer already exists" when the lookup returns an
    object; a non-nil error when the lookup fails in any other way. *)
Theorem ValidateConsumer_outcomes validator consumer remote :
  let run := ValidateConsumer validator consumer remote in
  let answer := (kong.ConsumersGet (Client validator) (Username consumer) remote).1 in
  (Username consumer = EmptyString ->
     value run = (false, "username cannot be empty", None) /\ trace run = []) /\
  (Username consumer <> EmptyString ->
     filter isRemote (trace run) = [CallConsumersGet (Username consumer) answer] /\
     (forall err, answer = Err err -> IsNotFound err = true ->
        value run = (true, EmptyString, None)) /\
     (forall c, answer = Ok (Some c) ->
        value run = (false, "consumer already exists", None)) /\
     (forall err, answer = Err err -> IsNotFound err = false ->
        exists failure, (value run).2 = Some failure)).
Proof.
  cbv zeta. split.
  - intros E. rewrite (ValidateConsumer_empty _ _ _ E). split; reflexivity.
  - intros NE. destruct (ValidateConsumer_lookup validator consumer remote NE) as (V & _ & T).
    split; [exact T|]. rewrite V. repeat split.
    + intros err -> NF. simpl. rewrite NF. reflexivity.
    + intros c ->. reflexivity.
    + intros err -> NF. simpl. rewrite NF. eexists. reflexivity.
Qed.

End PluginClaims.

(** ** The admission validator: credentials *)

Section CredentialFacts.
Import configurationv1 admission.

Lemma append_empty_r (s : string) : s +:+ EmptyString = s.
Proof.
  induction s as [|a s IH]; [reflexivity|].
  change (String a (s +:+ EmptyString) = String a s). rewrite IH. reflexivity.
Qed.

(** A string occurs at the end of whatever is put before it. *)
Lemma contains_suffix (before s : string) : contains (before +:+ s) s.
Proof. exists before, EmptyString. rewrite append_empty_r. reflexivity. Qed.

(** [strings.Join] is the joining of the standard library: the elements
    in order, with the separator between each two and nowhere else. *)
Lemma Join_concat (elems : list string) (sep : string) :
  strings.Join elems sep = String.concat sep elems.
Proof.
  induction elems as [|e rest IH]; [reflexivity|].
  destruct rest as [|e' rest]; [reflexivity|].
  change (e +:+ sep +:+ strings.Join (e' :: rest) sep
          = e +:+ sep +:+ String.concat sep (e' :: rest)).
  rewrite IH. reflexivity.
Qed.

(** The loop keeps, in order, the fields the secret does not have. *)
Lemma collectMissing_filter (secret : corev1.Secret) (fields : list string) :
  collectMissing secret fields = filter (fun field => corev1.index secret field = None) fields.
Proof.
  unfold collectMissing.
  enough (G : forall acc : list string,
             foldl (fun missingFields field =>
                      match corev1.index secret field with
                      | None => missingFields ++ [field]
                      | Some _ => missingFields
                      end) acc fields
             = acc ++ filter (fun field => corev1.index secret field = None) fields)
    by apply (G []).
  induction fields as [|field fields IH]; intros acc; simpl.
  - rewrite app_nil_r. reflexivity.
  - rewrite IH. destruct (corev1.index secret field) eqn:E.
    + rewrite filter_cons_False by (rewrite E; discriminate). reflexivity.
    + rewrite filter_cons_True by exact E. rewrite <- app_assoc. reflexivity.
Qed.

(** Presence decides the loop: two secrets with the same fields present
    miss the same fields. *)
Lemma collectMissing_presence (secret secret' : corev1.Secret) (fields : list string) :
  (forall key, is_Some (corev1.index secret key) <-> is_Some (corev1.index secret' key)) ->
  collectMissing secret fields = collectMissing secret' fields.
Proof.
  intros same. rewrite !collectMissing_filter.
  induction fields as [|field fields IH]; [reflexivity|].
  destruct (corev1.index secret field) eqn:E.
  - assert (S' : is_Some (corev1.index secret' field)) by (apply same; rewrite E; eauto).
    destruct S' as [x' E'].
    rewrite !filter_cons_False by (rewrite ?E, ?E'; discriminate). exact IH.
  - assert (E' : corev1.index secret' field = None).
    { destruct (corev1.index secret' field) eqn:E'; [|reflexivity].
      assert (S0 : is_Some (corev1.index secret field)) by (apply same; rewrite E'; eauto).
      rewrite E in S0. destruct S0; discriminate. }
    rewrite !filter_cons_True by assumption. rewrite IH. reflexivity.
Qed.

Lemma lookupRows_absent (table : list (list string * list string)) (credType : string) :
  credType ∉ concat (table.*1) -> matrix.lookupRows table credType = None.
Proof.
  induction table as [|[identifiers fields] rest IH]; intros N; [reflexivity|].
  simpl in *. rewrite elem_of_app in N.
  rewrite bool_decide_eq_false_2 by tauto. apply IH. tauto.
Qed.

(** The table of the code and the matrix of the specification agree on
    every string. *)
Lemma credTypeToFields_matrix (credType : string) :
  credTypeToFields !! credType = matrix.FieldRequirementMatrix credType.
Proof.
  destruct (decide (credType ∈ matrix.identifiers)) as [I|N].
  - unfold matrix.identifiers in I. simpl in I.
    repeat (apply elem_of_cons in I as [-> | I]; [vm_compute; reflexivity|]).
    inversion I.
  - unfold matrix.FieldRequirementMatrix. rewrite (lookupRows_absent _ _ N).
    apply not_elem_of_list_to_map_1. exact N.
Qed.

Context {Remote Storer : Type}.
Implicit Types (validator : KongHTTPValidator (Remote := Remote) (Storer := Storer))
  (secret : corev1.Secret) (remote : Remote).

Lemma ValidateCredential_pure validator secret remote :
  ValidateCredential validator secret remote =
    (value (ValidateCredential validator secret remote), remote, []).
Proof.
  unfold ValidateCredential.
  destruct (corev1.index secret "kongCredType") as [credType|]; [|reflexivity].
  destruct (credTypeToFields !! credType) as [fields|]; [|reflexivity].
  destruct (negb _); reflexivity.
Qed.

Lemma ValidateCredential_known validator secret remote credType fields :
  corev1.index secret "kongCredType" = Some credType ->
  credTypeToFields !! credType = Some fields ->
  value (ValidateCredential validator secret remote) =
    match filter (fun field => corev1.index secret field = None) fields with
    | [] => (true, EmptyString, None)
    | missing => (false, "missing required field(s): " +:+ strings.Join missing ", ", None)
    end.
Proof.
  intros T F. unfold ValidateCredential. rewrite T. simpl. rewrite F.
  rewrite collectMissing_filter.
  destruct (filter _ fields); reflexivity.
Qed.

Lemma ValidateCredential_unknown validator secret remote credType :
  corev1.index secret "kongCredType" = Some credType ->
  credTypeToFields !! credType = None ->
  value (ValidateCredential validator secret remote) =
    (false, "invalid credential type: " +:+ credType, None).
Proof. intros T F. unfold ValidateCredential. rewrite T. simpl. rewrite F. reflexivity. Qed.

Lemma ValidateCredential_unmarked validator secret remote :
  corev1.index secret "kongCredType" = None ->
  value (ValidateCredential validator secret remote) = (true, EmptyString, None).
Proof. intros T. unfold ValidateCredential. rewrite T. reflexivity. Qed.

End CredentialFacts.

Section CredentialClaims.
Import configurationv1 admission.
Context {Remote Storer : Type}.
Implicit Types (validator : KongHTTPValidator (Remote := Remote) (Storer := Storer))
  (secret : corev1.Secret) (remote : Remote).

(** C7. For a secret whose credential-type marker names a known type,
    [ValidateCredential] returns [(true, "", nil)] when every required
    field is present; otherwise it returns invalid with the reason
    "missing required field(s): " followed by exactly the missing field
    names, in the order the table lists them, with ", " between each two
    (the joining [String.concat] of the standard library). Only the
    presence of the fields counts, not their content: a secret of the same
    type with the same fields present gets the same answer. *)
Theorem ValidateCredential_required_fields validator secret remote credType fields :
  corev1.index secret "kongCredType" = Some credType ->
  credTypeToFields !! credType = Some fields ->
  let missing := filter (fun field => corev1.index secret field = None) fields in
  (missing = [] ->
     value (ValidateCredential validator secret remote) = (true, EmptyString, None)) /\
  (missing <> [] ->
     value (ValidateCredential validator secret remote) =
       (false, "missing required field(s): " +:+ String.concat ", " missing, None)) /\
  (forall field, field ∈ missing <-> field ∈ fields /\ corev1.index secret field = None) /\
  (forall secret',
     corev1.index secret' "kongCredType" = Some credType ->
     (forall key, is_Some (corev1.index secret key) <-> is_Some (corev1.index secret' key)) ->
     value (ValidateCredential validator secret' remote) =
       value (ValidateCredential validator secret remote)).
Proof.
  intros T F. cbv zeta.
  pose proof (ValidateCredential_known validator secret remote credType fields T F) as K.
  split; [| split; [| split]].
  - intros E. rewrite K, E. reflexivity.
  - intros NE. rewrite K, <- Join_concat.
    destruct (filter _ fields); [contradiction | reflexivity].
  - intros field. rewrite list_elem_of_filter. tauto.
  - intros secret' T' same.
    unfold ValidateCredential. rewrite T, T'. simpl. rewrite F.
    rewrite (collectMissing_presence secret secret' fields same). reflexivity.
Qed.

(** C8. The table [credTypeToFields] is the Field-Requirement Matrix: on
    every string it answers what the matrix answers, it has eleven
    entries, and the identifiers are matched literally (a change of case
    is a miss). For a credential type that is not one of the eleven,
    [ValidateCredential] returns invalid with a reason that contains the
    type string. *)
Theorem credTypeToFields_exact validator remote :
  (forall credType, credTypeToFields !! credType = matrix.FieldRequirementMatrix credType) /\
  size credTypeToFields = 11 /\
  matrix.identifiers =
    ["key-auth"; "keyauth_credential"; "basic-auth"; "basicauth_credential";
     "hmac-auth"; "hmacauth_credential"; "jwt"; "jwt_secret"; "oauth2"; "acl"; "mtls-auth"] /\
  credTypeToFields !! "Key-Auth" = None /\
  (forall secret credType,
     corev1.index secret "kongCredType" = Some credType ->
     credType ∉ matrix.identifiers ->
     value (ValidateCredential validator secret remote) =
       (false, "invalid credential type: " +:+ credType, None) /\
     contains (value (ValidateCredential validator secret remote)).1.2 credType).
Proof.
  split; [exact credTypeToFields_matrix|].
  split; [vm_compute; reflexivity|].
  split; [reflexivity|].
  split; [vm_compute; reflexivity|].
  intros secret credType T N.
  assert (F : credTypeToFields !! credType = None).
  { apply not_elem_of_list_to_map_1. exact N. }
  pose proof (ValidateCredential_unknown validator secret remote credType T F) as U.
  split; [exact U|]. rewrite U.
  change ((false, "invalid credential type: " +:+ credType, None).1.2 : string)
    with ("invalid credential type: " +:+ credType).
  apply contains_suffix.
Qed.

(** C10. [ValidateCredential] never returns an error, makes no call to
    any collaborator and leaves the remote state alone; its verdict
    depends on the secret's content mapping only (the validator, the
    remote state and the rest of the secret play no role); a secret
    without the field "kongCredType" is valid. *)
Theorem ValidateCredential_local validator secret remote :
  let run := ValidateCredential validator secret remote in
  (value run).2 = None /\
  trace run = [] /\
  final run = remote /\
  (forall validator' secret' remote',
     (forall key, corev1.index secret' key = corev1.index secret key) ->
     value (ValidateCredential validator' secret' remote') = value run) /\
  (corev1.index secret "kongCredType" = None -> value run = (true, EmptyString, None)).
Proof.
  cbv zeta. split; [| split; [| split; [| split]]].
  - unfold ValidateCredential.
    destruct (corev1.index secret "kongCredType") as [credType|]; [|reflexivity].
    destruct (credTypeToFields !! credType) as [fields|]; [|reflexivity].
    destruct (negb _); reflexivity.
  - rewrite ValidateCredential_pure. reflexivity.
  - rewrite ValidateCredential_pure. reflexivity.
  - intros validator' secret' remote' same.
    unfold ValidateCredential. rewrite (same "kongCredType").
    destruct (corev1.index secret "kongCredType") as [credType|]; [|reflexivity].
    destruct (credTypeToFields !! credType) as [fields|]; [|reflexivity].
    rewrite (collectMissing_presence secret' secret fields)
      by (intros key; rewrite (same key); tauto).
    destruct (negb _); reflexivity.
  - apply ValidateCredential_unmarked.
Qed.

End CredentialClaims.

(** ** The outcome invariant *)

Section OutcomeClaims.
Import configurationv1 admission.
Context {Remote Storer : Type}.
Variable RawConfigToConfiguration : string -> result (gmap string string).
Variable SecretToConfiguration :
  Storer -> SecretValueFromSource -> string -> result (gmap string string).
Implicit Types (validator : KongHTTPValidator (Remote := Remote) (Storer := Storer))
  (secret : corev1.Secret) (remote : Remote).


End OutcomeClaims.

(** ** The claims on concrete requests *)

(** A rate-limiting plugin that carries a raw config and also refers to a
    secret is rejected before any request is made. *)
Lemma ValidatePlugin_both_sources_witness :
  let run := admission.ValidatePlugin doubles.rawConfig doubles.secretConfig
               (doubles.validatorOf (doubles.testKong (Ok {| kong.StatusCode := 201 |})))
               (doubles.pluginOf "rate-limiting" "{minute: 5}" doubles.someSecret) [] in
  value run = (false, "plugin cannot use both Config and ConfigFrom", None) /\
  trace run = [].
Proof.
  cbv zeta.
  destruct (ValidatePlugin_both_sources doubles.rawConfig doubles.secretConfig
              (doubles.validatorOf (doubles.testKong (Ok {| kong.StatusCode := 201 |})))
              (doubles.pluginOf "rate-limiting" "{minute: 5}" doubles.someSecret) []
              {[ "raw" := "{minute: 5}" ]})
    as (_ & _ & T & _ & V & _).
  - reflexivity.
  - vm_compute. lia.
  - discriminate.
  - split; [apply V; discriminate | exact T].
Defined.

(** The same request without a plugin name: both sources are set, the raw
    config parses to a non-empty configuration, and the reason is not the
    one about the two sources. *)
Lemma ValidatePlugin_both_sources_unnamed :
  let k8sPlugin := doubles.pluginOf EmptyString "{minute: 5}" doubles.someSecret in
  let run := admission.ValidatePlugin doubles.rawConfig doubles.secretConfig
               (doubles.validatorOf (doubles.testKong (Ok {| kong.StatusCode := 201 |})))
               k8sPlugin [] in
  configurationv1.Config k8sPlugin <> EmptyString /\
  doubles.rawConfig (configurationv1.Config k8sPlugin) = Ok {[ "raw" := "{minute: 5}" ]} /\
  configurationv1.SecretValue (configurationv1.ConfigFrom k8sPlugin)
    <> configurationv1.noSecretValue /\
  value run = (false, "plugin name cannot be empty", None) /\
  (value run).1.2 <> "plugin cannot use both Config and ConfigFrom".
Proof.
  cbv zeta. split; [discriminate|]. split; [reflexivity|]. split; [discriminate|].
  split; [reflexivity | discriminate].
Qed.

(** A schema submission answered with status 400 and one answered with
    status 201 both make the plugin valid. *)
Lemma ValidatePlugin_completed_submission_witness :
  value (admission.ValidatePlugin doubles.rawConfig doubles.secretConfig
           (doubles.validatorOf (doubles.testKong (Ok {| kong.StatusCode := 400 |})))
           (doubles.pluginOf "rate-limiting" "{}" doubles.noSecret) [])
    = (true, EmptyString, None) /\
  value (admission.ValidatePlugin doubles.rawConfig doubles.secretConfig
           (doubles.validatorOf (doubles.testKong (Ok {| kong.StatusCode := 201 |})))
           (doubles.pluginOf "rate-limiting" "{}" doubles.noSecret) [])
    = (true, EmptyString, None).
Proof.
  split.
  - apply (ValidatePlugin_completed_submission doubles.rawConfig doubles.secretConfig
             (doubles.validatorOf (doubles.testKong (Ok {| kong.StatusCode := 400 |})))
             (doubles.pluginOf "rate-limiting" "{}" doubles.noSecret) []
             {| kong.Method := "POST"; kong.Path := "/schemas/plugins/validate";
                kong.Body := {| kong.Name := Some "rate-limiting"; kong.Config := ∅;
                                kong.RunOn := None; kong.Protocols := [] |} |}
             {| kong.StatusCode := 400 |}).
    vm_compute. constructor.
  - apply (ValidatePlugin_completed_submission doubles.rawConfig doubles.secretConfig
             (doubles.validatorOf (doubles.testKong (Ok {| kong.StatusCode := 201 |})))
             (doubles.pluginOf "rate-limiting" "{}" doubles.noSecret) []
             {| kong.Method := "POST"; kong.Path := "/schemas/plugins/validate";
                kong.Body := {| kong.Name := Some "rate-limiting"; kong.Config := ∅;
                                kong.RunOn := None; kong.Protocols := [] |} |}
             {| kong.StatusCode := 201 |}).
    vm_compute. constructor.
Defined.

(** With Kong unreachable, the plugin is rejected with the error's text
    and a nil error, while the consumer check returns the wrapped error. *)
Lemma ValidatePlugin_transport_error_witness :
  value (admission.ValidatePlugin doubles.rawConfig doubles.secretConfig
           (doubles.validatorOf doubles.unreachableKong)
           (doubles.pluginOf "rate-limiting" "{}" doubles.noSecret) [])
    = (false, "making HTTP request: connection refused", None) /\
  value (admission.ValidateConsumer (doubles.validatorOf doubles.unreachableKong)
           (doubles.consumerOf "alice") [])
    = (false, EmptyString,
       Some (ErrWrap "fetching consumer from Kong: " doubles.connectionRefused)).
Proof.
  destruct (ValidatePlugin_transport_error doubles.rawConfig doubles.secretConfig
              (doubles.validatorOf doubles.unreachableKong) []) as (P & C).
  split.
  - apply (P (doubles.pluginOf "rate-limiting" "{}" doubles.noSecret)
             {| kong.Method := "POST"; kong.Path := "/schemas/plugins/validate";
                kong.Body := {| kong.Name := Some "rate-limiting"; kong.Config := ∅;
                                kong.RunOn := None; kong.Protocols := [] |} |}
             doubles.connectionRefused).
    vm_compute. constructor.
  - apply (C (doubles.consumerOf "alice") doubles.connectionRefused).
    + vm_compute. constructor.
    + reflexivity.
Defined.

(** The consumer "alice": unknown to Kong, she is valid; known to Kong,
    she already exists; an empty username is refused without a lookup. *)
Lemma ValidateConsumer_outcomes_witness :
  value (admission.ValidateConsumer
           (doubles.validatorOf (doubles.testKong (Ok {| kong.StatusCode := 201 |})))
           (doubles.consumerOf "alice") ["bob"]) = (true, EmptyString, None) /\
  value (admission.ValidateConsumer
           (doubles.validatorOf (doubles.testKong (Ok {| kong.StatusCode := 201 |})))
           (doubles.consumerOf "alice") ["alice"]) = (false, "consumer already exists", None) /\
  (let run := admission.ValidateConsumer
                (doubles.validatorOf (doubles.testKong (Ok {| kong.StatusCode := 201 |})))
                (doubles.consumerOf EmptyString) ["alice"] in
   value run = (false, "username cannot be empty", None) /\ trace run = []).
Proof.
  split; [| split].
  - destruct (ValidateConsumer_outcomes
                (doubles.validatorOf (doubles.testKong (Ok {| kong.StatusCode := 201 |})))
                (doubles.consumerOf "alice") ["bob"]) as (_ & lookup).
    destruct lookup as (_ & notFound & _); [discriminate|].
    apply (notFound (ErrExternal "HTTP status 404 (message: Not found)" true)); reflexivity.
  - destruct (ValidateConsumer_outcomes
                (doubles.validatorOf (doubles.testKong (Ok {| kong.StatusCode := 201 |})))
                (doubles.consumerOf "alice") ["alice"]) as (_ & lookup).
    destruct lookup as (_ & _ & found & _); [discriminate|].
    apply (found {| kong.ID := "alice"; kong.Username := "alice" |}). reflexivity.
  - destruct (ValidateConsumer_outcomes
                (doubles.validatorOf (doubles.testKong (Ok {| kong.StatusCode := 201 |})))
                (doubles.consumerOf EmptyString) ["alice"]) as (empty & _).
    apply empty. reflexivity.
Defined.

(** A basic-auth secret with only the field "username" misses "password";
    with both fields it is valid, whatever they hold; a jwt secret with
    only "algorithm" and "key" misses two fields, and one with nothing but
    the marker misses all four, joined by ", ". *)
Lemma ValidateCredential_required_fields_witness :
  value (admission.ValidateCredential
           (doubles.validatorOf (doubles.testKong (Ok {| kong.StatusCode := 201 |})))
           (doubles.secretOf [("kongCredType", "basic-auth"); ("username", "alice")]) [])
    = (false, "missing required field(s): password", None) /\
  value (admission.ValidateCredential
           (doubles.validatorOf (doubles.testKong (Ok {| kong.StatusCode := 201 |})))
           (doubles.secretOf [("kongCredType", "basic-auth"); ("username", "alice");
                              ("password", EmptyString)]) [])
    = (true, EmptyString, None) /\
  value (admission.ValidateCredential
           (doubles.validatorOf (doubles.testKong (Ok {| kong.StatusCode := 201 |})))
           (doubles.secretOf [("kongCredType", "jwt"); ("algorithm", "RS256");
                              ("key", "issuer")]) [])
    = (false, "missing required field(s): rsa_public_key, secret", None) /\
  value (admission.ValidateCredential
           (doubles.validatorOf (doubles.testKong (Ok {| kong.StatusCode := 201 |})))
           (doubles.secretOf [("kongCredType", "jwt")]) [])
    = (false, "missing required field(s): algorithm, rsa_public_key, key, secret", None).
Proof.
  split; [| split; [| split]].
  - destruct (ValidateCredential_required_fields
                (doubles.validatorOf (doubles.testKong (Ok {| kong.StatusCode := 201 |})))
                (doubles.secretOf [("kongCredType", "basic-auth"); ("username", "alice")]) []
                "basic-auth" ["username"; "password"]) as (_ & missing & _).
    + reflexivity.
    + vm_compute. reflexivity.
    + apply missing. vm_compute. discriminate.
  - destruct (ValidateCredential_required_fields
                (doubles.validatorOf (doubles.testKong (Ok {| kong.StatusCode := 201 |})))
                (doubles.secretOf [("kongCredType", "basic-auth"); ("username", "alice");
                                   ("password", EmptyString)]) []
                "basic-auth" ["username"; "password"]) as (complete & _).
    + reflexivity.
    + vm_compute. reflexivity.
    + apply complete. vm_compute. reflexivity.
  - destruct (ValidateCredential_required_fields
                (doubles.validatorOf (doubles.testKong (Ok {| kong.StatusCode := 201 |})))
                (doubles.secretOf [("kongCredType", "jwt"); ("algorithm", "RS256");
                                   ("key", "issuer")]) []
                "jwt" ["algorithm"; "rsa_public_key"; "key"; "secret"]) as (_ & missing & _).
    + reflexivity.
    + vm_compute. reflexivity.
    + apply missing. vm_compute. discriminate.
  - destruct (ValidateCredential_required_fields
                (doubles.validatorOf (doubles.testKong (Ok {| kong.StatusCode := 201 |})))
                (doubles.secretOf [("kongCredType", "jwt")]) []
                "jwt" ["algorithm"; "rsa_public_key"; "key"; "secret"]) as (_ & missing & _).
    + reflexivity.
    + vm_compute. reflexivity.
    + apply missing. vm_compute. discriminate.
Defined.

(** A secret marked with the type "Key-Auth", which differs from an
    identifier of the table by case only, is of an invalid type. *)
Lemma credTypeToFields_exact_witness :
  value (admission.ValidateCredential
           (doubles.validatorOf (doubles.testKong (Ok {| kong.StatusCode := 201 |})))
           (doubles.secretOf [("kongCredType", "Key-Auth"); ("key", "secret")]) [])
    = (false, "invalid credential type: Key-Auth", None).
Proof.
  destruct (credTypeToFields_exact
              (doubles.validatorOf (doubles.testKong (Ok {| kong.StatusCode := 201 |}))) [])
    as (_ & _ & _ & _ & unknown).
  apply (unknown (doubles.secretOf [("kongCredType", "Key-Auth"); ("key", "secret")]) "Key-Auth").
  - reflexivity.
  - unfold matrix.identifiers. simpl.
    repeat (apply not_elem_of_cons; split; [discriminate|]). apply not_elem_of_nil.
Defined.

(** A secret that is no credential at all is valid without any call, also
    for a validator whose Kong cannot be reached. *)
Lemma ValidateCredential_local_witness :
  let run := admission.ValidateCredential
               (doubles.validatorOf (doubles.testKong (Ok {| kong.StatusCode := 201 |})))
               (doubles.secretOf [("tls.crt", "certificate")]) ["alice"] in
  value run = (true, EmptyString, None) /\
  trace run = [] /\
  value (admission.ValidateCredential (doubles.validatorOf doubles.unreachableKong)
           (doubles.secretOf [("tls.crt", "certificate")]) []) = value run.
Proof.
  cbv zeta.
  destruct (ValidateCredential_local
              (doubles.validatorOf (doubles.testKong (Ok {| kong.StatusCode := 201 |})))
              (doubles.secretOf [("tls.crt", "certificate")]) ["alice"])
    as (_ & T & _ & same & unmarked).
  split; [apply unmarked; reflexivity|]. split; [exact T|].
  apply same. intros key. reflexivity.
Defined.



(** * Further properties *)

(** ** The loop of [Run] over the controllers *)

Section RunFacts.
Import util manager.
Context {Mgr Reader : Type} `{!Manager Mgr Reader}.
Implicit Types (c : ControllerDef Mgr Reader) (controllers : list (ControllerDef Mgr Reader))
  (cfg : Config) (mgr : Mgr).

Lemma RunControllers_cons c controllers cfg mgr :
  RunControllers (c :: controllers) cfg mgr =
    match value (MaybeSetupWithManager c cfg mgr) with
    | Some err =>
        (Some (ErrWrap (unableToCreate c) err),
         final (MaybeSetupWithManager c cfg mgr),
         trace (MaybeSetupWithManager c cfg mgr))
    | None =>
        (value (RunControllers controllers cfg (final (MaybeSetupWithManager c cfg mgr))),
         final (RunControllers controllers cfg (final (MaybeSetupWithManager c cfg mgr))),
         trace (MaybeSetupWithManager c cfg mgr)
           ++ trace (RunControllers controllers cfg (final (MaybeSetupWithManager c cfg mgr))))
    end.
Proof.
  simpl. unfold bind, value, final, trace.
  destruct (MaybeSetupWithManager c cfg mgr) as [[[err|] mgr1] t1]; simpl.
  - rewrite app_nil_r. reflexivity.
  - destruct (RunControllers controllers cfg mgr1) as [[b mgr2] t2]. reflexivity.
Qed.

Lemma RunControllers_cons_ok c controllers cfg mgr :
  value (MaybeSetupWithManager c cfg mgr) = None ->
  let mgr1 := final (MaybeSetupWithManager c cfg mgr) in
  value (RunControllers (c :: controllers) cfg mgr) = value (RunControllers controllers cfg mgr1) /\
  final (RunControllers (c :: controllers) cfg mgr) = final (RunControllers controllers cfg mgr1) /\
  trace (RunControllers (c :: controllers) cfg mgr) =
    trace (MaybeSetupWithManager c cfg mgr) ++ trace (RunControllers controllers cfg mgr1).
Proof. intros R. rewrite RunControllers_cons, R. repeat split. Qed.

Lemma RunControllers_cons_err c controllers cfg mgr err :
  value (MaybeSetupWithManager c cfg mgr) = Some err ->
  value (RunControllers (c :: controllers) cfg mgr) = Some (ErrWrap (unableToCreate c) err) /\
  final (RunControllers (c :: controllers) cfg mgr) = final (MaybeSetupWithManager c cfg mgr) /\
  trace (RunControllers (c :: controllers) cfg mgr) = trace (MaybeSetupWithManager c cfg mgr).
Proof. intros R. rewrite RunControllers_cons, R. repeat split. Qed.

(** What one resolution contributes to the setting up: nothing, the
    manager being left as it was, or the setting up of the controller
    itself, which is then not disabled. *)
Lemma MaybeSetupWithManager_installs c cfg mgr :
  (final (MaybeSetupWithManager c cfg mgr) = mgr /\
   filter isSetup (trace (MaybeSetupWithManager c cfg mgr)) = []) \/
  (IsEnabled c cfg <> EnablementStatusDisabled /\
   final (MaybeSetupWithManager c cfg mgr) = (installAll [c] mgr).1 /\
   filter isSetup (trace (MaybeSetupWithManager c cfg mgr)) = (installAll [c] mgr).2).
Proof.
  destruct (IsEnabled c cfg) eqn:E.
  - left. rewrite (resolve_disabled _ _ _ E). split; reflexivity.
  - right. rewrite (resolve_enabled _ _ _ E), setup_run.
    split; [discriminate|]. split; reflexivity.
  - destruct (AutoHandler_ c) as [handler|] eqn:H.
    + destruct (handler (GetAPIReader mgr)) eqn:A.
      * right. rewrite (resolve_auto_true _ _ _ _ E H A), setup_run.
        split; [discriminate|]. split; reflexivity.
      * left. rewrite (resolve_auto_false _ _ _ _ E H A). split; reflexivity.
    + left. rewrite (resolve_auto_nil _ _ _ E H). split; reflexivity.
Qed.

(** X1. Fail fast. When the loop returns an error, the controllers split
    into those before the failing one, which all resolved without error,
    the failing one, and those after it; the error is the failing
    controller's error behind "unable to create controller <name>: ", and
    the manager and the calls are those of the run up to and including the
    failing controller: nothing after it is resolved. *)
Theorem RunControllers_fail_fast controllers cfg mgr failure :
  value (RunControllers controllers cfg mgr) = Some failure ->
  exists before c after err,
    controllers = before ++ c :: after /\
    value (RunControllers before cfg mgr) = None /\
    value (MaybeSetupWithManager c cfg (final (RunControllers before cfg mgr))) = Some err /\
    failure = ErrWrap (unableToCreate c) err /\
    final (RunControllers controllers cfg mgr) =
      final (MaybeSetupWithManager c cfg (final (RunControllers before cfg mgr))) /\
    trace (RunControllers controllers cfg mgr) =
      trace (RunControllers before cfg mgr)
        ++ trace (MaybeSetupWithManager c cfg (final (RunControllers before cfg mgr))).
Proof.
  revert mgr. induction controllers as [|c controllers IH]; intros mgr V.
  - discriminate.
  - rewrite RunControllers_cons in V |- *.
    destruct (value (MaybeSetupWithManager c cfg mgr)) as [err|] eqn:R.
    + injection V as <-. exists [], c, controllers, err. repeat split. exact R.
    + destruct (IH _ V) as (before & c' & after & err & -> & B & F & -> & S & T).
      exists (c :: before), c', after, err.
      rewrite RunControllers_cons, R.
      unfold value, final, trace in *. simpl in *.
      repeat split; try assumption.
      rewrite T, app_assoc. reflexivity.
Qed.

(** X2. Whatever happens, what the loop sets up is a selection of the
    entries of the list that are not disabled, in list order and each entry
    at most once: there are entries [installed], a sublist of the entries
    that are not disabled, such that the manager the loop leaves and its
    [SetupWithManager] calls are exactly those of setting up [installed],
    each by its own [SetupWithManager]. A disabled entry is never set
    up. *)
Theorem RunControllers_setups_sublist controllers cfg mgr :
  exists installed,
    sublist installed
      (filter (fun c => IsEnabled c cfg <> EnablementStatusDisabled) controllers) /\
    final (RunControllers controllers cfg mgr) = (installAll installed mgr).1 /\
    filter isSetup (trace (RunControllers controllers cfg mgr)) = (installAll installed mgr).2.
Proof.
  revert mgr. induction controllers as [|c controllers IH]; intros mgr.
  - exists []. split; [apply sublist_nil_l | split; reflexivity].
  - destruct (value (MaybeSetupWithManager c cfg mgr)) as [err|] eqn:R.
    + destruct (RunControllers_cons_err c controllers cfg mgr err R) as (_ & -> & ->).
      destruct (MaybeSetupWithManager_installs c cfg mgr) as [(F & T) | (E & F & T)].
      * exists []. rewrite F, T. split; [apply sublist_nil_l | split; reflexivity].
      * exists [c]. rewrite F, T. split; [| split; reflexivity].
        rewrite filter_cons_True by exact E. apply sublist_skip, sublist_nil_l.
    + destruct (RunControllers_cons_ok c controllers cfg mgr R) as (_ & -> & ->).
      rewrite filter_app.
      destruct (IH (final (MaybeSetupWithManager c cfg mgr))) as (installed & S & F' & T').
      destruct (MaybeSetupWithManager_installs c cfg mgr) as [(F & T) | (E & F & T)].
      * exists installed. rewrite T, F', T', F. split; [| split; reflexivity].
        rewrite filter_cons. destruct (decide _); [apply sublist_cons|]; exact S.
      * exists (c :: installed). rewrite T, F', T', F. split; [| split; reflexivity].
        rewrite filter_cons_True by exact E. apply sublist_skip, S.
Qed.

(** X3. When no controller of the list is in Auto mode and the loop runs
    to its end without error, it has set up exactly the enabled entries,
    each once, in list order, and nothing else: the manager it leaves and
    its calls are those of setting up the enabled entries, each by its own
    [SetupWithManager]. *)
Theorem RunControllers_success controllers cfg mgr :
  (forall c, c ∈ controllers -> IsEnabled c cfg <> EnablementStatusAuto) ->
  value (RunControllers controllers cfg mgr) = None ->
  final (RunControllers controllers cfg mgr) =
    (installAll (filter (fun c => IsEnabled c cfg = EnablementStatusEnabled) controllers) mgr).1 /\
  trace (RunControllers controllers cfg mgr) =
    (installAll (filter (fun c => IsEnabled c cfg = EnablementStatusEnabled) controllers) mgr).2.
Proof.
  revert mgr. induction controllers as [|c controllers IH]; intros mgr A V.
  - split; reflexivity.
  - assert (rest : forall c', c' ∈ controllers -> IsEnabled c' cfg <> EnablementStatusAuto).
    { intros c' I. apply A. right. exact I. }
    assert (R : value (MaybeSetupWithManager c cfg mgr) = None).
    { rewrite RunControllers_cons in V.
      destruct (value (MaybeSetupWithManager c cfg mgr)); [discriminate | reflexivity]. }
    destruct (RunControllers_cons_ok c controllers cfg mgr R) as (V' & F & T).
    rewrite V' in V. rewrite F, T.
    destruct (IH _ rest V) as (F' & T'). rewrite F', T'.
    destruct (IsEnabled c cfg) eqn:E.
    + rewrite (resolve_disabled _ _ _ E).
      rewrite filter_cons_False by (rewrite E; discriminate). split; reflexivity.
    + rewrite (resolve_enabled _ _ _ E), setup_run.
      rewrite filter_cons_True by exact E. split; reflexivity.
    + exfalso. apply (A c); [left | exact E].
Qed.

(** A list in which no controller has an AutoHandler cannot get past a
    controller in Auto mode. *)
Lemma RunControllers_auto_unsupported controllers cfg mgr :
  (forall c, c ∈ controllers -> AutoHandler_ c = None) ->
  (exists c, c ∈ controllers /\ IsEnabled c cfg = EnablementStatusAuto) ->
  exists failure, value (RunControllers controllers cfg mgr) = Some failure.
Proof.
  revert mgr. induction controllers as [|c controllers IH]; intros mgr N (a & I & E).
  - inversion I.
  - rewrite RunControllers_cons.
    destruct (value (MaybeSetupWithManager c cfg mgr)) as [err|] eqn:R; [eauto|].
    unfold value at 1. simpl. apply IH.
    + intros c' I'. apply N. right. exact I'.
    + apply elem_of_cons in I as [-> | I]; [|eauto].
      rewrite (resolve_auto_nil _ _ _ E) in R by (apply N; left). discriminate.
Qed.

(** The loop reads the configuration only through the controllers'
    [IsEnabled] pointers. *)
Lemma RunControllers_reads controllers cfg cfg' mgr :
  (forall c, c ∈ controllers -> IsEnabled c cfg = IsEnabled c cfg') ->
  RunControllers controllers cfg mgr = RunControllers controllers cfg' mgr.
Proof.
  revert mgr. induction controllers as [|c controllers IH]; intros mgr S; [reflexivity|].
  rewrite !RunControllers_cons.
  assert (M : MaybeSetupWithManager c cfg mgr = MaybeSetupWithManager c cfg' mgr).
  { unfold MaybeSetupWithManager. rewrite (S c) by left. reflexivity. }
  rewrite M. rewrite (IH (final (MaybeSetupWithManager c cfg' mgr)))
    by (intros c' I; apply S; right; exact I).
  reflexivity.
Qed.

(** X4. No controller of [Run] has an AutoHandler: as soon as one of the
    ten enablement fields the controllers point to is Auto, the loop
    returns an error, whatever the reconcilers do. *)
Theorem Run_auto_unsupported (r : Reconcilers) cfg mgr :
  ServiceEnabled cfg = EnablementStatusAuto \/
  IngressNetV1Enabled cfg = EnablementStatusAuto \/
  IngressNetV1beta1Enabled cfg = EnablementStatusAuto \/
  IngressExtV1beta1Enabled cfg = EnablementStatusAuto \/
  UDPIngressEnabled cfg = EnablementStatusAuto \/
  TCPIngressEnabled cfg = EnablementStatusAuto \/
  KongIngressEnabled cfg = EnablementStatusAuto \/
  KongClusterPluginEnabled cfg = EnablementStatusAuto \/
  KongPluginEnabled cfg = EnablementStatusAuto \/
  KongConsumerEnabled cfg = EnablementStatusAuto ->
  exists failure, value (RunControllers (controllers r) cfg mgr) = Some failure.
Proof.
  intros A. apply RunControllers_auto_unsupported.
  - intros c I. unfold controllers in I.
    repeat (apply elem_of_cons in I as [-> | I]; [reflexivity|]). inversion I.
  - unfold controllers.
    destruct A as [A|[A|[A|[A|[A|[A|[A|[A|[A|A]]]]]]]]];
      [ exists (def ServiceEnabled (CoreV1ServiceReconciler r))
      | exists (def IngressNetV1Enabled (NetV1IngressReconciler r))
      | exists (def IngressNetV1beta1Enabled (NetV1Beta1IngressReconciler r))
      | exists (def IngressExtV1beta1Enabled (ExtV1Beta1IngressReconciler r))
      | exists (def UDPIngressEnabled (KongV1Alpha1UDPIngressReconciler r))
      | exists (def TCPIngressEnabled (KongV1Beta1TCPIngressReconciler r))
      | exists (def KongIngressEnabled (KongV1KongIngressReconciler r))
      | exists (def KongClusterPluginEnabled (KongV1KongClusterPluginReconciler r))
      | exists (def KongPluginEnabled (KongV1KongPluginReconciler r))
      | exists (def KongConsumerEnabled (KongV1KongConsumerReconciler r)) ];
      (split; [| exact A]);
      repeat first [apply list_elem_of_here | apply list_elem_of_further].
Qed.

(** X5. No controller of [Run] points to [KongStateEnabled]: two
    configurations that agree on the ten other enablement fields give the
    same run of the loop. *)
Theorem Run_ignores_KongStateEnabled (r : Reconcilers) cfg cfg' mgr :
  ServiceEnabled cfg = ServiceEnabled cfg' ->
  IngressNetV1Enabled cfg = IngressNetV1Enabled cfg' ->
  IngressNetV1beta1Enabled cfg = IngressNetV1beta1Enabled cfg' ->
  IngressExtV1beta1Enabled cfg = IngressExtV1beta1Enabled cfg' ->
  UDPIngressEnabled cfg = UDPIngressEnabled cfg' ->
  TCPIngressEnabled cfg = TCPIngressEnabled cfg' ->
  KongIngressEnabled cfg = KongIngressEnabled cfg' ->
  KongClusterPluginEnabled cfg = KongClusterPluginEnabled cfg' ->
  KongPluginEnabled cfg = KongPluginEnabled cfg' ->
  KongConsumerEnabled cfg = KongConsumerEnabled cfg' ->
  RunControllers (controllers r) cfg mgr = RunControllers (controllers r) cfg' mgr.
Proof.
  intros. apply RunControllers_reads. intros c I. unfold controllers in I.
  repeat (apply elem_of_cons in I as [-> | I]; [assumption|]). inversion I.
Qed.

End RunFacts.

(** The second of three controllers fails: the error names it, the first
    one is installed and the third one is not reached. *)
Lemma RunControllers_fail_fast_witness :
  let run := manager.RunControllers doubles.threeControllers
               (doubles.configWith util.EnablementStatusEnabled) doubles.newCluster in
  doubles.installed (final run) = ["*corev1.CoreV1ServiceReconciler"] /\
  exists before c after err,
    doubles.threeControllers = before ++ c :: after /\
    value run = Some (ErrWrap (manager.unableToCreate c) err) /\
    trace run =
      trace (manager.RunControllers before (doubles.configWith util.EnablementStatusEnabled)
               doubles.newCluster)
        ++ trace (manager.MaybeSetupWithManager c (doubles.configWith util.EnablementStatusEnabled)
                    (final (manager.RunControllers before
                              (doubles.configWith util.EnablementStatusEnabled)
                              doubles.newCluster))).
Proof.
  cbv zeta. split; [reflexivity|].
  destruct (RunControllers_fail_fast doubles.threeControllers
              (doubles.configWith util.EnablementStatusEnabled) doubles.newCluster
              (ErrWrap (manager.unableToCreate
                          (manager.def (Reader := list string) manager.IngressNetV1Enabled
                             (doubles.broken "*configuration.NetV1IngressReconciler")))
                       doubles.schemeError))
    as (before & c & after & err & S & _ & _ & F & _ & T).
  - reflexivity.
  - exists before, c, after, err. split; [exact S|]. split; [rewrite <- F; reflexivity | exact T].
Defined.

(** Two entries of one type name, the first disabled and failing if it
    were set up, the second enabled: exactly one setup call, which
    succeeds, and one controller installed. *)
Lemma RunControllers_success_witness :
  let run := manager.RunControllers doubles.sameTypeControllers
               (doubles.configWith util.EnablementStatusEnabled) doubles.newCluster in
  doubles.installed (final run) = ["*configuration.KongV1KongIngressReconciler"] /\
  trace run =
    [manager.CallSetupWithManager "*configuration.KongV1KongIngressReconciler" None].
Proof.
  cbv zeta.
  destruct (RunControllers_success doubles.sameTypeControllers
              (doubles.configWith util.EnablementStatusEnabled) doubles.newCluster)
    as (F & T).
  - intros c I. unfold doubles.sameTypeControllers in I.
    repeat (apply elem_of_cons in I as [-> | I]; [discriminate|]). inversion I.
  - reflexivity.
  - rewrite F, T. split; reflexivity.
Defined.

(** With the ingress controller set to Auto, the loop of [Run] fails. *)
Lemma Run_auto_unsupported_witness :
  exists failure,
    value (manager.RunControllers (manager.controllers doubles.reconcilers)
             (doubles.configWith util.EnablementStatusAuto) doubles.newCluster) = Some failure.
Proof.
  apply (Run_auto_unsupported doubles.reconcilers
           (doubles.configWith util.EnablementStatusAuto) doubles.newCluster).
  right. left. reflexivity.
Defined.

(** Switching the KongState controller off changes nothing in the loop. *)
Lemma Run_ignores_KongStateEnabled_witness :
  let cfg := doubles.configWith util.EnablementStatusEnabled in
  let cfg' :=
    {| manager.KongStateEnabled := util.EnablementStatusDisabled;
       manager.IngressExtV1beta1Enabled := manager.IngressExtV1beta1Enabled cfg;
       manager.IngressNetV1beta1Enabled := manager.IngressNetV1beta1Enabled cfg;
       manager.IngressNetV1Enabled := manager.IngressNetV1Enabled cfg;
       manager.UDPIngressEnabled := manager.UDPIngressEnabled cfg;
       manager.TCPIngressEnabled := manager.TCPIngressEnabled cfg;
       manager.KongIngressEnabled := manager.KongIngressEnabled cfg;
       manager.KongClusterPluginEnabled := manager.KongClusterPluginEnabled cfg;
       manager.KongPluginEnabled := manager.KongPluginEnabled cfg;
       manager.KongConsumerEnabled := manager.KongConsumerEnabled cfg;
       manager.ServiceEnabled := manager.ServiceEnabled cfg |} in
  manager.RunControllers (manager.controllers doubles.reconcilers) cfg doubles.newCluster
  = manager.RunControllers (manager.controllers doubles.reconcilers) cfg' doubles.newCluster.
Proof.
  cbv zeta.
  apply (Run_ignores_KongStateEnabled doubles.reconcilers); reflexivity.
Defined.

(** ** The config secret accessor: calls, errors and repeated use *)

Section AccessorMore.
Import configuration.
Context {Cluster : Type}.
Implicit Types (c : Client Cluster) (cl : Cluster) (nsn : types.NamespacedName).

(** The object the accessor sends to [Create]: what [Get] left in the
    fresh secret, under the target's name and namespace. *)
Lemma getOrCreateConfigSecret_run c nsn cl :
  let got := Get c nsn corev1.new cl in
  let obj := corev1.SetNamespace (corev1.SetName got.1.1 (types.Name nsn)) (types.Namespace nsn) in
  let made := Create c obj got.2 in
  getOrCreateConfigSecret c nsn cl =
    match got.1.2 with
    | None =>
        ((Some match corev1.Data got.1.1 with
               | None => corev1.SetData got.1.1 ∅
               | Some _ => got.1.1
               end, false, None),
         got.2, [CallGet nsn None])
    | Some err =>
        if apierrors.IsNotFound err then
          (match made.1.2 with
           | Some err' => (None, false, Some err')
           | None => (Some made.1.1, true, None)
           end,
           made.2, [CallGet nsn (Some err); CallCreate obj made.1.2])
        else ((None, false, Some err), got.2, [CallGet nsn (Some err)])
    end.
Proof.
  cbv zeta. unfold getOrCreateConfigSecret, bind, call, ret.
  destruct (Get c nsn corev1.new cl) as [[got [err|]] cl0]; simpl; [|reflexivity].
  destruct (apierrors.IsNotFound err); simpl; [|reflexivity].
  destruct (Create c _ cl0) as [[made [err'|]] cl1]; reflexivity.
Qed.

(** X6. The three results fit together on every run: a secret is returned
    exactly when the error is nil, and [created] is true only with a nil
    error. *)
Theorem getOrCreateConfigSecret_result_shape c nsn cl :
  let result := value (getOrCreateConfigSecret c nsn cl) in
  (is_Some result.1.1 <-> result.2 = None) /\
  (result.1.2 = true -> result.2 = None).
Proof.
  cbv zeta. rewrite getOrCreateConfigSecret_run.
  destruct (Get c nsn corev1.new cl) as [[got [err|]] cl0]; simpl.
  - destruct (apierrors.IsNotFound err); simpl.
    + destruct (Create c _ cl0) as [[made [err'|]] cl1]; simpl;
        (split; [split|]); intros H; try discriminate; try reflexivity; eauto.
      destruct H; discriminate.
    + (split; [split|]); intros H; try discriminate. destruct H; discriminate.
  - (split; [split|]); intros H; try reflexivity; eauto.
Qed.

(** X7. The calls of one run: one [Get] of the target, and then at most
    one [Create], made only when that [Get] answered not-found, of an
    object under the target's name and namespace. *)
Theorem getOrCreateConfigSecret_calls c nsn cl :
  let run := getOrCreateConfigSecret c nsn cl in
  (exists err, trace run = [CallGet nsn err] /\
     (forall e, err = Some e -> apierrors.IsNotFound e = false)) \/
  (exists e obj err',
     trace run = [CallGet nsn (Some e); CallCreate obj err'] /\
     apierrors.IsNotFound e = true /\
     corev1.Name obj = types.Name nsn /\
     corev1.Namespace obj = types.Namespace nsn).
Proof.
  cbv zeta. rewrite getOrCreateConfigSecret_run.
  destruct (Get c nsn corev1.new cl) as [[got [err|]] cl0]; simpl.
  - destruct (apierrors.IsNotFound err) eqn:NF; simpl.
    + right. do 3 eexists. repeat split. exact NF.
    + left. eexists. split; [reflexivity|]. intros e [= <-]. exact NF.
  - left. eexists. split; [reflexivity|]. discriminate.
Qed.

(** X8. The error returned is the error of the last call made, as it
    came: an error of [Get] that is not a not-found, or the error of
    [Create], is neither wrapped nor retried; and [created] is true
    exactly when a [Create] call came back without error. *)
Theorem getOrCreateConfigSecret_error c nsn cl :
  let run := getOrCreateConfigSecret c nsn cl in
  (value run).2 = last (trace run) ≫= callError /\
  ((value run).1.2 = true <-> exists obj, CallCreate obj None ∈ trace run).
Proof.
  cbv zeta. rewrite getOrCreateConfigSecret_run.
  destruct (Get c nsn corev1.new cl) as [[got [err|]] cl0]; simpl.
  - destruct (apierrors.IsNotFound err); simpl.
    + destruct (Create c _ cl0) as [[made [err'|]] cl1]; simpl.
      * split; [reflexivity|]. split; [discriminate|]. intros (obj & I).
        unfold trace in I. simpl in I.
        apply elem_of_cons in I as [I | I]; [discriminate|].
        apply list_elem_of_singleton in I. discriminate.
      * split; [reflexivity|]. split; [|reflexivity]. intros _. eexists.
        unfold trace. simpl. right. left.
    + split; [reflexivity|]. split; [discriminate|]. intros (obj & I).
      unfold trace in I. simpl in I. apply list_elem_of_singleton in I. discriminate.
  - split; [reflexivity|]. split; [discriminate|]. intros (obj & I).
    unfold trace in I. simpl in I. apply list_elem_of_singleton in I. discriminate.
Qed.

(** X9. On a record that exists, the accessor is idempotent. When [Get]
    finds the record and leaves the cluster as it is, a call returns the
    record with [created = false] and a content mapping that is not nil
    (the record's own when it has one, the empty one otherwise), makes no
    [Create] call and leaves the cluster as it is; a second call returns
    the same. *)
Theorem getOrCreateConfigSecret_idempotent c nsn cl stored :
  Get c nsn corev1.new cl = ((stored, None), cl) ->
  let twice :=
    (let* first := getOrCreateConfigSecret c nsn in
     let* second := getOrCreateConfigSecret c nsn in
     ret (first, second)) cl in
  exists secret,
    value twice = ((Some secret, false, None), (Some secret, false, None)) /\
    corev1.Name secret = corev1.Name stored /\
    corev1.Namespace secret = corev1.Namespace stored /\
    corev1.Data secret = Some (default ∅ (corev1.Data stored)) /\
    final twice = cl /\
    trace twice = [CallGet nsn None; CallGet nsn None].
Proof.
  intros G. cbv zeta.
  pose proof (getOrCreateConfigSecret_run c nsn cl) as single.
  cbv zeta in single. rewrite G in single. simpl in single.
  unfold bind, ret. rewrite single. simpl. rewrite single. simpl.
  eexists. split; [reflexivity|].
  destruct stored as [name namespace [data|]]; repeat split.
Qed.

End AccessorMore.

(** A not-found that comes back wrapped is still a not-found: the accessor
    goes on to create the secret. *)
Lemma getOrCreateConfigSecret_calls_witness :
  let run := configuration.getOrCreateConfigSecret doubles.wrappingClient
               configuration.kongConfig ∅ in
  (value run).1.2 = true /\
  exists e obj err',
    trace run = [configuration.CallGet configuration.kongConfig (Some e);
                 configuration.CallCreate obj err'] /\
    apierrors.IsNotFound e = true /\
    corev1.Name obj = types.Name configuration.kongConfig /\
    corev1.Namespace obj = types.Namespace configuration.kongConfig.
Proof.
  cbv zeta. split; [reflexivity|].
  destruct (getOrCreateConfigSecret_calls doubles.wrappingClient configuration.kongConfig ∅)
    as [(err & T & _) | created].
  - vm_compute in T. discriminate.
  - exact created.
Defined.

(** The config secret stored without content: both calls return it with
    the empty mapping. *)
Lemma getOrCreateConfigSecret_idempotent_witness :
  exists secret,
    value ((let* first := configuration.getOrCreateConfigSecret configuration.memClient
                            configuration.kongConfig in
            let* second := configuration.getOrCreateConfigSecret configuration.memClient
                             configuration.kongConfig in
            ret (first, second)) (doubles.clusterWith None))
      = ((Some secret, false, None), (Some secret, false, None)) /\
    corev1.Data secret = Some ∅.
Proof.
  destruct (getOrCreateConfigSecret_idempotent configuration.memClient configuration.kongConfig
              (doubles.clusterWith None) (doubles.storedConfig None))
    as (secret & V & _ & _ & D & _).
  - reflexivity.
  - exists secret. split; [exact V | exact D].
Defined.

(** ** The admission validator: what a plugin or consumer check does and sends *)

Section ValidatorMore.
Import configurationv1 admission.
Context {Remote Storer : Type}.
Variable RawConfigToConfiguration : string -> result (gmap string string).
Variable SecretToConfiguration :
  Storer -> SecretValueFromSource -> string -> result (gmap string string).
Implicit Types (validator : KongHTTPValidator (Remote := Remote) (Storer := Storer))
  (consumer : KongConsumer) (k8sPlugin : KongPlugin) (remote : Remote).

Local Abbreviation ValidatePlugin := (ValidatePlugin RawConfigToConfiguration SecretToConfiguration).
Local Abbreviation assemblePlugin := (assemblePlugin RawConfigToConfiguration SecretToConfiguration).

(** The descriptor the first half assembles. *)
Lemma assemblePlugin_descriptor validator k8sPlugin plugin :
  assemblePlugin validator k8sPlugin = inr plugin ->
  PluginName k8sPlugin <> EmptyString /\
  kong.Name plugin = Some (PluginName k8sPlugin) /\
  kong.RunOn plugin =
    (if decide (RunOn k8sPlugin = EmptyString) then None else Some (RunOn k8sPlugin)) /\
  kong.Protocols plugin = Protocols k8sPlugin /\
  (SecretValue (ConfigFrom k8sPlugin) = noSecretValue ->
     RawConfigToConfiguration (Config k8sPlugin) = Ok (kong.Config plugin)) /\
  (SecretValue (ConfigFrom k8sPlugin) <> noSecretValue ->
     (exists parsed, RawConfigToConfiguration (Config k8sPlugin) = Ok parsed /\ size parsed = 0) /\
     SecretToConfiguration (Store validator) (SecretValue (ConfigFrom k8sPlugin))
       (Namespace k8sPlugin) = Ok (kong.Config plugin)).
Proof.
  unfold admission.assemblePlugin.
  destruct (decide (PluginName k8sPlugin = EmptyString)) as [|NE]; [discriminate|].
  destruct (RawConfigToConfiguration (Config k8sPlugin)) as [parsed | err]; [|discriminate].
  assert (P : (if 0 <? length (Protocols k8sPlugin) then Protocols k8sPlugin else [])
              = Protocols k8sPlugin) by (destruct (Protocols k8sPlugin); reflexivity).
  assert (R : (if decide (RunOn k8sPlugin <> EmptyString) then Some (RunOn k8sPlugin) else None)
              = (if decide (RunOn k8sPlugin = EmptyString) then None else Some (RunOn k8sPlugin))).
  { destruct (decide (RunOn k8sPlugin <> _)), (decide (RunOn k8sPlugin = _));
      try reflexivity; contradiction. }
  destruct (decide (SecretValue (ConfigFrom k8sPlugin) <> noSecretValue)) as [S|S].
  - destruct (0 <? size parsed) eqn:L; [discriminate|].
    destruct (SecretToConfiguration _ _ _) as [config | err]; [|discriminate].
    intros [= <-]. simpl. rewrite P, R. repeat split; try assumption; try contradiction.
    exists parsed. split; [reflexivity|]. apply Nat.ltb_ge in L. lia.
  - intros [= <-]. simpl. rewrite P, R. repeat split; try assumption; try contradiction.
Qed.

(** X10. A non-nil error comes back only from a run that has made no call
    and has left the remote state alone; the plugin is then reported
    invalid, and the error is, untouched, the error of the parser (reason
    "could not parse plugin configuration"), of the secret lookup (reason
    "could not load secret plugin configuration") or of the construction
    of the request (empty reason). *)
Theorem ValidatePlugin_error validator k8sPlugin remote failure :
  (value (ValidatePlugin validator k8sPlugin remote)).2 = Some failure ->
  trace (ValidatePlugin validator k8sPlugin remote) = [] /\
  final (ValidatePlugin validator k8sPlugin remote) = remote /\
  (value (ValidatePlugin validator k8sPlugin remote)).1.1 = false /\
  ((RawConfigToConfiguration (Config k8sPlugin) = Err failure /\
    (value (ValidatePlugin validator k8sPlugin remote)).1.2
      = "could not parse plugin configuration") \/
   (SecretToConfiguration (Store validator) (SecretValue (ConfigFrom k8sPlugin))
      (Namespace k8sPlugin) = Err failure /\
    (value (ValidatePlugin validator k8sPlugin remote)).1.2
      = "could not load secret plugin configuration") \/
   (exists plugin,
      kong.NewRequest (Client validator) "POST" "/schemas/plugins/validate" plugin = Err failure /\
      (value (ValidatePlugin validator k8sPlugin remote)).1.2 = EmptyString)).
Proof.
  intros F.
  destruct (assemblePlugin validator k8sPlugin) as [verdict | plugin] eqn:A.
  - rewrite (ValidatePlugin_early _ _ _ _ _ _ A) in F |- *.
    unfold value, final, trace in F |- *. simpl in F |- *.
    revert A. unfold admission.assemblePlugin.
    destruct (decide (PluginName k8sPlugin = EmptyString)).
    { intros [= <-]. discriminate. }
    destruct (RawConfigToConfiguration (Config k8sPlugin)) as [parsed | err].
    2: { intros [= <-]. injection F as ->. repeat split. left. split; reflexivity. }
    destruct (decide (SecretValue (ConfigFrom k8sPlugin) <> _)); [|discriminate].
    destruct (0 <? size parsed).
    { intros [= <-]. discriminate. }
    destruct (SecretToConfiguration _ _ _) as [config | err]; [discriminate|].
    intros [= <-]. injection F as ->. repeat split. right; left. split; reflexivity.
  - destruct (kong.NewRequest (Client validator) "POST" "/schemas/plugins/validate" plugin)
      as [req | err] eqn:N.
    + rewrite (ValidatePlugin_submitted _ _ _ _ _ _ _ A N) in F.
      unfold value in F. simpl in F.
      destruct (kong.Do (Client validator) req remote).1; discriminate.
    + rewrite (ValidatePlugin_no_request _ _ _ _ _ _ _ A N) in F |- *.
      injection F as ->. repeat split. right; right. exists plugin. split; [exact N | reflexivity].
Qed.

(** X11. A run makes at most one call, and never a consumer lookup or a
    log entry. The one call is the submission of the request built for
    POST /schemas/plugins/validate from a descriptor that carries the
    plugin's name, its RunOn when that is not empty, its protocols, and as
    configuration the parsed raw config when no secret is referred to, or
    else the configuration read from the secret (the raw config being
    empty then). *)
Theorem ValidatePlugin_calls validator k8sPlugin remote :
  trace (ValidatePlugin validator k8sPlugin remote) = [] \/
  exists plugin req,
    trace (ValidatePlugin validator k8sPlugin remote)
      = [CallDo req (kong.Do (Client validator) req remote).1] /\
    kong.NewRequest (Client validator) "POST" "/schemas/plugins/validate" plugin = Ok req /\
    kong.Name plugin = Some (PluginName k8sPlugin) /\
    kong.RunOn plugin =
      (if decide (RunOn k8sPlugin = EmptyString) then None else Some (RunOn k8sPlugin)) /\
    kong.Protocols plugin = Protocols k8sPlugin /\
    (SecretValue (ConfigFrom k8sPlugin) = noSecretValue ->
       RawConfigToConfiguration (Config k8sPlugin) = Ok (kong.Config plugin)) /\
    (SecretValue (ConfigFrom k8sPlugin) <> noSecretValue ->
       SecretToConfiguration (Store validator) (SecretValue (ConfigFrom k8sPlugin))
         (Namespace k8sPlugin) = Ok (kong.Config plugin)).
Proof.
  destruct (assemblePlugin validator k8sPlugin) as [verdict | plugin] eqn:A.
  - left. rewrite (ValidatePlugin_early _ _ _ _ _ _ A). reflexivity.
  - destruct (kong.NewRequest (Client validator) "POST" "/schemas/plugins/validate" plugin)
      as [req | err] eqn:N.
    + right. exists plugin, req.
      rewrite (ValidatePlugin_submitted _ _ _ _ _ _ _ A N).
      destruct (assemblePlugin_descriptor _ _ _ A) as (_ & D1 & D2 & D3 & D4 & D5).
      repeat split; try assumption. intros S. apply (D5 S).
    + left. rewrite (ValidatePlugin_no_request _ _ _ _ _ _ _ A N). reflexivity.
Qed.

(** X12. A plugin is reported valid exactly when the submission was made
    and came back without a transport error: no plugin is accepted without
    the remote service having been asked. *)
Theorem ValidatePlugin_valid_iff validator k8sPlugin remote :
  (value (ValidatePlugin validator k8sPlugin remote)).1.1 = true <->
  exists req resp, trace (ValidatePlugin validator k8sPlugin remote) = [CallDo req (Ok resp)].
Proof.
  destruct (ValidatePlugin_cases RawConfigToConfiguration SecretToConfiguration
              validator k8sPlugin remote)
    as [(T & _ & [A | (err & V)]) | (req & answer & T & V)].
  - destruct (assemblePlugin_early _ _ _ _ _ A) as (invalid & _).
    rewrite T, invalid. split; [discriminate | intros (? & ? & ?); discriminate].
  - rewrite T, V. split; [discriminate | intros (? & ? & ?); discriminate].
  - rewrite T, V. destruct answer as [resp | err]; simpl.
    + split; [eauto | reflexivity].
    + split; [discriminate | intros (? & ? & ?); discriminate].
Qed.

(** X13. A consumer is reported valid exactly when its username is not
    empty and the lookup answers not-found, or answers no consumer and no
    error. *)
Theorem ValidateConsumer_valid_iff validator consumer remote :
  (value (ValidateConsumer validator consumer remote)).1.1 = true <->
  Username consumer <> EmptyString /\
  ((kong.ConsumersGet (Client validator) (Username consumer) remote).1 = Ok None \/
   exists err, (kong.ConsumersGet (Client validator) (Username consumer) remote).1 = Err err /\
               IsNotFound err = true).
Proof.
  destruct (decide (Username consumer = EmptyString)) as [E|NE].
  - rewrite (ValidateConsumer_empty _ _ _ E). simpl. split; [discriminate | tauto].
  - destruct (ValidateConsumer_lookup validator consumer remote NE) as (V & _).
    rewrite V. destruct (kong.ConsumersGet _ _ remote).1 as [[c|] | err]; simpl.
    + split; [discriminate|]. intros (_ & [? | (? & ? & _)]); discriminate.
    + split; [intros _; split; [exact NE | left; reflexivity] | reflexivity].
    + destruct (IsNotFound err) eqn:NF; simpl.
      * split; [intros _; split; [exact NE | right; eauto] | reflexivity].
      * split; [discriminate|]. intros (_ & [? | (e & [= <-] & ?)]); congruence.
Qed.

(** X14. The consumer check returns a non-nil error only after a lookup
    that failed with something else than not-found: the error is that
    failure behind "fetching consumer from Kong: ", the consumer is
    reported invalid with an empty reason, the failure is logged once, and
    the remote state is the one the lookup left. Without an error nothing
    is logged. *)
Theorem ValidateConsumer_error validator consumer remote :
  (forall failure,
     (value (ValidateConsumer validator consumer remote)).2 = Some failure ->
     exists err,
       (kong.ConsumersGet (Client validator) (Username consumer) remote).1 = Err err /\
       IsNotFound err = false /\
       failure = ErrWrap "fetching consumer from Kong: " err /\
       Error failure = "fetching consumer from Kong: " +:+ Error err /\
       (value (ValidateConsumer validator consumer remote)).1 = (false, EmptyString) /\
       final (ValidateConsumer validator consumer remote)
         = (kong.ConsumersGet (Client validator) (Username consumer) remote).2 /\
       trace (ValidateConsumer validator consumer remote)
         = [CallConsumersGet (Username consumer) (Err err);
            CallLoggerErrorf ("failed to fetch consumer from kong: " +:+ Error err)]) /\
  ((value (ValidateConsumer validator consumer remote)).2 = None ->
     forall message, CallLoggerErrorf message ∉ trace (ValidateConsumer validator consumer remote)).
Proof.
  destruct (decide (Username consumer = EmptyString)) as [E|NE].
  { rewrite (ValidateConsumer_empty _ _ _ E). split; [discriminate|].
    intros _ message I. inversion I. }
  unfold ValidateConsumer. destruct (decide _); [contradiction|].
  unfold bind, call, ret.
  destruct (kong.ConsumersGet _ _ remote) as [[[c|] | err] remote'];
    unfold value, final, trace; simpl.
  1-2: split; [discriminate|]; intros _ message I;
       apply list_elem_of_singleton in I; discriminate.
  destruct (IsNotFound err) eqn:NF; simpl.
  - split; [discriminate|]. intros _ message I.
    apply list_elem_of_singleton in I. discriminate.
  - split; [|discriminate]. intros failure [= <-]. exists err. repeat split; exact NF.
Qed.

End ValidatorMore.

(** With the secret store empty, a plugin that refers to a secret gets the
    lookup's error back, before any request. *)
Lemma ValidatePlugin_error_witness :
  let run := admission.ValidatePlugin doubles.rawConfig doubles.secretConfig
               (doubles.validatorOf (doubles.testKong (Ok {| kong.StatusCode := 201 |})))
               (doubles.pluginOf "rate-limiting" "{}" doubles.someSecret) ["alice"] in
  trace run = [] /\ final run = ["alice"] /\ (value run).1.1 = false.
Proof.
  cbv zeta.
  destruct (ValidatePlugin_error doubles.rawConfig doubles.secretConfig
              (doubles.validatorOf (doubles.testKong (Ok {| kong.StatusCode := 201 |})))
              (doubles.pluginOf "rate-limiting" "{}" doubles.someSecret) ["alice"]
              (ErrExternal "secret not found" true)) as (T & F & V & _).
  - reflexivity.
  - split; [exact T|]. split; [exact F | exact V].
Defined.

(** ** The admission validator: more on credentials *)

Section CredentialMore.
Import configurationv1 admission.

Lemma append_assoc (a b c : string) : (a +:+ b) +:+ c = a +:+ b +:+ c.
Proof.
  induction a as [|x a IH]; [reflexivity|].
  change (String x ((a +:+ b) +:+ c) = String x (a +:+ b +:+ c)). rewrite IH. reflexivity.
Qed.

Lemma contains_refl (s : string) : contains s s.
Proof. exists EmptyString, EmptyString. rewrite append_empty_r. reflexivity. Qed.

Lemma contains_prefix (s after : string) : contains (s +:+ after) s.
Proof. exists EmptyString, after. reflexivity. Qed.

Lemma contains_append_l (before hay needle : string) :
  contains hay needle -> contains (before +:+ hay) needle.
Proof.
  intros (b & a & ->). exists (before +:+ b), a. rewrite append_assoc. reflexivity.
Qed.

(** Every element joined occurs in the result of [strings.Join]. *)
Lemma Join_contains (elems : list string) (sep elem : string) :
  elem ∈ elems -> contains (strings.Join elems sep) elem.
Proof.
  induction elems as [|e rest IH]; intros I; [inversion I|].
  destruct rest as [|e' rest].
  - apply list_elem_of_singleton in I as ->. apply contains_refl.
  - change (strings.Join (e :: e' :: rest) sep)
      with (e +:+ sep +:+ strings.Join (e' :: rest) sep).
    apply elem_of_cons in I as [-> | I].
    + apply contains_prefix.
    + apply contains_append_l, contains_append_l, IH, I.
Qed.

(** Every entry of the table lists at least one field, lists no field
    twice and does not list the type marker itself. *)
Lemma credTypeToFields_fields (credType : string) (fields : list string) :
  credTypeToFields !! credType = Some fields ->
  fields <> [] /\ NoDup fields /\ "kongCredType" ∉ fields.
Proof.
  intros L. apply elem_of_list_to_map_2 in L. unfold credTypeToFieldsEntries in L.
  repeat (apply elem_of_cons in L as [[= -> ->] | L];
          [ split; [discriminate|]; split;
            [ apply (bool_decide_unpack _); vm_compute; exact I
            | apply (bool_decide_unpack _); vm_compute; exact I ] |]).
  inversion L.
Qed.

Context {Remote Storer : Type}.
Implicit Types (validator : KongHTTPValidator (Remote := Remote) (Storer := Storer))
  (secret : corev1.Secret) (remote : Remote).

(** X15. A secret is reported valid exactly when it has no field
    "kongCredType", or that field names a type of the table and every
    field the table requires for it is present. *)
Theorem ValidateCredential_valid_iff validator secret remote :
  (value (ValidateCredential validator secret remote)).1.1 = true <->
  corev1.index secret "kongCredType" = None \/
  exists credType fields,
    corev1.index secret "kongCredType" = Some credType /\
    credTypeToFields !! credType = Some fields /\
    forall field, field ∈ fields -> is_Some (corev1.index secret field).
Proof.
  destruct (corev1.index secret "kongCredType") as [credType|] eqn:T.
  - destruct (credTypeToFields !! credType) as [fields|] eqn:F.
    + rewrite (ValidateCredential_known _ _ _ _ _ T F).
      destruct (filter _ fields) as [|missing others] eqn:M; simpl.
      * split; [|reflexivity]. intros _. right. exists credType, fields.
        repeat split; [exact F|]. intros field I.
        destruct (corev1.index secret field) eqn:P; [eauto|].
        assert (N : field ∈ filter (fun field => corev1.index secret field = None) fields)
          by (apply list_elem_of_filter; split; assumption).
        rewrite M in N. inversion N.
      * split; [discriminate|]. intros [? | (t & fs & [= <-] & F' & present)]; [discriminate|].
        rewrite F in F'. injection F' as <-.
        assert (N : missing ∈ filter (fun field => corev1.index secret field = None) fields)
          by (rewrite M; left).
        apply list_elem_of_filter in N as (absent & I).
        destruct (present missing I) as [x P]. congruence.
    + rewrite (ValidateCredential_unknown _ _ _ _ T F). simpl.
      split; [discriminate|]. intros [? | (t & fs & [= <-] & F' & _)]; congruence.
  - rewrite (ValidateCredential_unmarked _ _ _ T). simpl. split; [tauto | reflexivity].
Qed.

(** X16. For a secret of a known type, every required field that is
    absent is named in the reason. *)
Theorem ValidateCredential_names_missing validator secret remote credType fields field :
  corev1.index secret "kongCredType" = Some credType ->
  credTypeToFields !! credType = Some fields ->
  field ∈ fields ->
  corev1.index secret field = None ->
  (value (ValidateCredential validator secret remote)).1.1 = false /\
  contains (value (ValidateCredential validator secret remote)).1.2 field.
Proof.
  intros T F I A. rewrite (ValidateCredential_known _ _ _ _ _ T F).
  assert (N : field ∈ filter (fun field => corev1.index secret field = None) fields)
    by (apply list_elem_of_filter; split; assumption).
  destruct (filter _ fields) as [|missing others] eqn:M; [inversion N|].
  split; [reflexivity|].
  change ((false, "missing required field(s): " +:+ strings.Join (missing :: others) ", ",
           @None error).1.2)
    with ("missing required field(s): " +:+ strings.Join (missing :: others) ", ").
  apply contains_append_l, Join_contains, N.
Qed.

(** X17. Validity only grows with the fields present: a valid secret
    stays valid when fields are added or their contents change, as long
    as the field "kongCredType" is left as it is. *)
Theorem ValidateCredential_monotone validator secret secret' remote :
  corev1.index secret' "kongCredType" = corev1.index secret "kongCredType" ->
  (forall key, is_Some (corev1.index secret key) -> is_Some (corev1.index secret' key)) ->
  (value (ValidateCredential validator secret remote)).1.1 = true ->
  value (ValidateCredential validator secret' remote) = (true, EmptyString, None).
Proof.
  intros T more V.
  destruct (corev1.index secret "kongCredType") as [credType|] eqn:M.
  - destruct (credTypeToFields !! credType) as [fields|] eqn:F.
    + rewrite (ValidateCredential_known _ _ _ _ _ M F) in V.
      rewrite (ValidateCredential_known _ _ _ _ _ T F).
      destruct (filter (fun field => corev1.index secret field = None) fields)
        as [|missing others] eqn:E; [|discriminate].
      destruct (filter (fun field => corev1.index secret' field = None) fields)
        as [|missing' others'] eqn:E'; [reflexivity|].
      assert (N : missing' ∈ filter (fun field => corev1.index secret' field = None) fields)
        by (rewrite E'; left).
      apply list_elem_of_filter in N as (absent' & I).
      destruct (corev1.index secret missing') eqn:P.
      * destruct (more missing') as [x P']; [rewrite P; eauto | congruence].
      * assert (N : missing' ∈ filter (fun field => corev1.index secret field = None) fields)
          by (apply list_elem_of_filter; split; assumption).
        rewrite E in N. inversion N.
    + rewrite (ValidateCredential_unknown _ _ _ _ M F) in V. discriminate.
  - apply ValidateCredential_unmarked. exact T.
Qed.

(** X18. Two identifiers with the same entry in the table are
    interchangeable: secrets that differ only in which of the two their
    marker holds get the same verdict. *)
Theorem ValidateCredential_alias validator secret secret' remote credType credType' fields :
  corev1.index secret "kongCredType" = Some credType ->
  corev1.index secret' "kongCredType" = Some credType' ->
  credTypeToFields !! credType = Some fields ->
  credTypeToFields !! credType' = Some fields ->
  (forall key, key <> "kongCredType" -> corev1.index secret' key = corev1.index secret key) ->
  value (ValidateCredential validator secret' remote)
    = value (ValidateCredential validator secret remote).
Proof.
  intros T T' F F' same.
  rewrite (ValidateCredential_known _ _ _ _ _ T F), (ValidateCredential_known _ _ _ _ _ T' F').
  destruct (credTypeToFields_fields _ _ F) as (_ & _ & marker).
  assert (E : filter (fun field => corev1.index secret' field = None) fields
              = filter (fun field => corev1.index secret field = None) fields).
  { clear F F'. induction fields as [|field fields IH]; [reflexivity|].
    assert (P : corev1.index secret' field = corev1.index secret field).
    { apply same. intros ->. apply marker. left. }
    rewrite !filter_cons, P, IH; [reflexivity|].
    intros I. apply marker. right. exact I. }
  rewrite E. reflexivity.
Qed.

(** X19. A secret of a known type that holds nothing but the marker is
    invalid, and the reason lists all the fields of the type, in the
    order of the table. *)
Theorem ValidateCredential_marker_only validator secret remote credType fields :
  corev1.index secret "kongCredType" = Some credType ->
  credTypeToFields !! credType = Some fields ->
  (forall key, key <> "kongCredType" -> corev1.index secret key = None) ->
  value (ValidateCredential validator secret remote)
    = (false, "missing required field(s): " +:+ strings.Join fields ", ", None).
Proof.
  intros T F only. rewrite (ValidateCredential_known _ _ _ _ _ T F).
  destruct (credTypeToFields_fields _ _ F) as (nonempty & _ & marker).
  assert (E : filter (fun field => corev1.index secret field = None) fields = fields).
  { clear nonempty F. induction fields as [|field fields IH]; [reflexivity|].
    rewrite filter_cons_True.
    - f_equal. apply IH. intros I. apply marker. right. exact I.
    - apply only. intros ->. apply marker. left. }
  rewrite E. destruct fields; [contradiction | reflexivity].
Qed.

End CredentialMore.

(** A jwt secret without "rsa_public_key" and "secret": the reason names
    the public key. *)
Lemma ValidateCredential_names_missing_witness :
  let run := admission.ValidateCredential
               (doubles.validatorOf (doubles.testKong (Ok {| kong.StatusCode := 201 |})))
               (doubles.secretOf [("kongCredType", "jwt"); ("algorithm", "RS256"); ("key", "issuer")])
               [] in
  value run = (false, "missing required field(s): rsa_public_key, secret", None) /\
  contains (value run).1.2 "rsa_public_key".
Proof.
  cbv zeta. split; [reflexivity|].
  apply (ValidateCredential_names_missing
           (doubles.validatorOf (doubles.testKong (Ok {| kong.StatusCode := 201 |})))
           (doubles.secretOf [("kongCredType", "jwt"); ("algorithm", "RS256"); ("key", "issuer")])
           [] "jwt" ["algorithm"; "rsa_public_key"; "key"; "secret"] "rsa_public_key").
  - reflexivity.
  - vm_compute. reflexivity.
  - right. left.
  - reflexivity.
Defined.

(** A valid basic-auth secret stays valid with a further field. *)
Lemma ValidateCredential_monotone_witness :
  value (admission.ValidateCredential
           (doubles.validatorOf (doubles.testKong (Ok {| kong.StatusCode := 201 |})))
           (doubles.secretOf [("note", "rotated"); ("kongCredType", "basic-auth");
                              ("username", "alice"); ("password", "secret")]) [])
    = (true, EmptyString, None).
Proof.
  apply (ValidateCredential_monotone
           (doubles.validatorOf (doubles.testKong (Ok {| kong.StatusCode := 201 |})))
           (doubles.secretOf [("kongCredType", "basic-auth");
                              ("username", "alice"); ("password", "secret")])).
  - reflexivity.
  - intros key present. unfold corev1.index, doubles.secretOf in *.
    cbn [corev1.Data] in *. rewrite list_to_map_cons.
    destruct (decide ("note" = key)) as [<-|N].
    + rewrite lookup_insert_eq. eauto.
    + rewrite lookup_insert_ne by exact N. exact present.
  - vm_compute. reflexivity.
Defined.

(** The same key under the marker "key-auth" and under the marker
    "keyauth_credential". *)
Lemma ValidateCredential_alias_witness :
  value (admission.ValidateCredential
           (doubles.validatorOf (doubles.testKong (Ok {| kong.StatusCode := 201 |})))
           (doubles.secretOf [("kongCredType", "keyauth_credential"); ("key", "my-key")]) [])
  = value (admission.ValidateCredential
             (doubles.validatorOf (doubles.testKong (Ok {| kong.StatusCode := 201 |})))
             (doubles.secretOf [("kongCredType", "key-auth"); ("key", "my-key")]) []).
Proof.
  apply (ValidateCredential_alias
           (doubles.validatorOf (doubles.testKong (Ok {| kong.StatusCode := 201 |})))
           (doubles.secretOf [("kongCredType", "key-auth"); ("key", "my-key")])
           (doubles.secretOf [("kongCredType", "keyauth_credential"); ("key", "my-key")])
           [] "key-auth" "keyauth_credential" ["key"]).
  - reflexivity.
  - reflexivity.
  - vm_compute. reflexivity.
  - vm_compute. reflexivity.
  - intros key N. unfold corev1.index, doubles.secretOf. cbn [corev1.Data].
    rewrite !list_to_map_cons. rewrite !(lookup_insert_ne _ "kongCredType") by congruence.
    reflexivity.
Defined.

(** An oauth2 secret that holds only the marker misses all four fields. *)
Lemma ValidateCredential_marker_only_witness :
  value (admission.ValidateCredential
           (doubles.validatorOf (doubles.testKong (Ok {| kong.StatusCode := 201 |})))
           (doubles.secretOf [("kongCredType", "oauth2")]) [])
  = (false, "missing required field(s): name, client_id, client_secret, redirect_uris", None).
Proof.
  apply (ValidateCredential_marker_only
           (doubles.validatorOf (doubles.testKong (Ok {| kong.StatusCode := 201 |})))
           (doubles.secretOf [("kongCredType", "oauth2")]) [] "oauth2"
           ["name"; "client_id"; "client_secret"; "redirect_uris"]).
  - reflexivity.
  - vm_compute. reflexivity.
  - intros key N. unfold corev1.index, doubles.secretOf. cbn [corev1.Data].
    rewrite list_to_map_cons, lookup_insert_ne by congruence. reflexivity.
Defined.

(** ** Memory: slices and arrays *)

Section MemoryFacts.
Import memory.
Context {A : Type}.
Implicit Types (h : gmap loc (list A)) (s : slice).

Lemma elements_length h s : valid h s -> length (elements h s) = len s.
Proof.
  destruct s as [|a off n]; [reflexivity|]. intros (arr & L & B). simpl.
  rewrite L. simpl. rewrite length_take, length_drop. lia.
Qed.

(** Arrays that stay as they are keep showing the same elements. *)
Lemma elements_weaken h h' s :
  h ⊆ h' -> valid h s -> elements h' s = elements h s /\ valid h' s.
Proof.
  intros S V. destruct s as [|a off n]; [split; [reflexivity | exact I]|].
  destruct V as (arr & L & B). pose proof (lookup_weaken _ _ _ _ L S) as L'.
  split; [simpl; rewrite L, L'; reflexivity|]. exists arr. split; assumption.
Qed.

Lemma make_fresh zero n h :
  h !! fresh (dom h) = None /\ h ⊆ (make zero n h).2.
Proof.
  assert (N : h !! fresh (dom h) = None) by (apply not_elem_of_dom, is_fresh).
  split; [exact N|]. apply insert_subseteq, N.
Qed.

(** A slice made and then filled by [copy] from a slice of the same
    length shows the elements of that slice, in an array of its own. *)
Lemma make_copy zero h src :
  valid h src ->
  let made := make zero (len src) h in
  (copy made.1 src made.2).2 = <[fresh (dom h) := elements h src]> h.
Proof.
  intros V. cbv zeta. destruct (make_fresh zero (len src) h) as (N & S).
  destruct (elements_weaken _ _ _ S V) as (E & _).
  unfold copy. simpl. unfold make in E |- *. simpl in E |- *.
  rewrite E, alter_insert_eq. f_equal.
  rewrite Nat.min_id, take_ge by (rewrite elements_length by exact V; lia).
  rewrite drop_ge by (rewrite length_replicate; lia).
  rewrite app_nil_r. reflexivity.
Qed.

End MemoryFacts.

(** ** The deep copy of a KongConsumer *)

Section ConsumerCopy.
Import memory v1.
Variables ObjectMeta ListMeta : Type.
Variable ObjectMeta_DeepCopyInto : ObjectMeta -> ObjectMeta.
Variable ObjectMeta_zero : ObjectMeta.
Implicit Types (c out : KongConsumer ObjectMeta) (h : gmap loc (list string)).

Local Abbreviation DeepCopyInto := (KongConsumer_DeepCopyInto ObjectMeta ObjectMeta_DeepCopyInto).
Local Abbreviation DeepCopy :=
  (KongConsumer_DeepCopy ObjectMeta ObjectMeta_DeepCopyInto ObjectMeta_zero).
Local Abbreviation DeepCopyObject :=
  (KongConsumer_DeepCopyObject ObjectMeta ListMeta ObjectMeta_DeepCopyInto ObjectMeta_zero).

(** The copy and the memory [DeepCopyInto] leaves, for a receiver whose
    slice lies in the memory. *)
Lemma KongConsumer_DeepCopyInto_run c out h :
  valid h (Credentials c) ->
  DeepCopyInto c out h =
    match Credentials c with
    | nilSlice =>
        ({| TypeMeta_ := TypeMeta_ c;
            ObjectMeta_ := ObjectMeta_DeepCopyInto (ObjectMeta_ c);
            Username := Username c; CustomID := CustomID c;
            Credentials := nilSlice |}, h)
    | mkSlice _ _ n =>
        ({| TypeMeta_ := TypeMeta_ c;
            ObjectMeta_ := ObjectMeta_DeepCopyInto (ObjectMeta_ c);
            Username := Username c; CustomID := CustomID c;
            Credentials := mkSlice (fresh (dom h)) 0 n |},
         <[fresh (dom h) := elements h (Credentials c)]> h)
    end.
Proof.
  intros V. unfold KongConsumer_DeepCopyInto.
  destruct (Credentials c) as [|b off n] eqn:C; [reflexivity|].
  cbn [TypeMeta_ ObjectMeta_ Username CustomID Credentials].
  pose proof (make_copy EmptyString h (mkSlice b off n) V) as M. cbv zeta in M.
  rewrite M. reflexivity.
Qed.

(** X20. [DeepCopy] of a nil receiver is nil and touches nothing;
    [DeepCopyObject] returns the nil interface exactly for a nil receiver.
    For a receiver whose slice lies in the memory, the copy has the
    receiver's type meta, username and custom id, the deep copy of its
    object meta, and credentials that show the same elements; they are
    nil exactly when the receiver's are (an empty slice stays a non-nil
    empty slice). *)
Theorem KongConsumer_DeepCopy_equal h :
  DeepCopy None h = (None, h) /\
  (forall receiver, (DeepCopyObject receiver h).1 = None <-> receiver = None) /\
  (forall c,
     valid h (Credentials c) ->
     exists c',
       (DeepCopy (Some c) h).1 = Some c' /\
       (DeepCopyObject (Some c) h).1 = Some (ObjectKongConsumer _ _ c') /\
       TypeMeta_ c' = TypeMeta_ c /\
       ObjectMeta_ c' = ObjectMeta_DeepCopyInto (ObjectMeta_ c) /\
       Username c' = Username c /\
       CustomID c' = CustomID c /\
       credentials (DeepCopy (Some c) h).2 c' = credentials h c /\
       valid (DeepCopy (Some c) h).2 (Credentials c') /\
       len (Credentials c') = len (Credentials c) /\
       (Credentials c' = nilSlice <-> Credentials c = nilSlice)).
Proof.
  split; [reflexivity|]. split.
  - intros [c|]; unfold KongConsumer_DeepCopyObject; simpl; split; congruence.
  - intros c V. unfold KongConsumer_DeepCopyObject, KongConsumer_DeepCopy.
    cbn [fst snd]. rewrite (KongConsumer_DeepCopyInto_run c _ h V).
    unfold credentials. destruct (Credentials c) as [|b off n] eqn:C.
    + eexists. repeat split.
    + eexists. cbn [fst snd]. split; [reflexivity|]. split; [reflexivity|].
      cbn [TypeMeta_ ObjectMeta_ Username CustomID Credentials].
      assert (L : length (elements h (mkSlice b off n)) = n)
        by (rewrite (elements_length h _ V); reflexivity).
      remember (elements h (mkSlice b off n)) as shown.
      repeat split; try discriminate.
      * unfold elements. rewrite lookup_insert_eq. simpl. apply take_ge. lia.
      * eexists. rewrite lookup_insert_eq. split; [reflexivity|]. lia.
Qed.

(** X21. The copy shares no array with the receiver. [DeepCopyInto]
    changes no array that was in the memory (it only adds one), what it
    returns does not depend on what the target held, and afterwards a
    write through the copy's credentials leaves the receiver's credentials
    as they were, and a write through the receiver's leaves the copy's. *)
Theorem KongConsumer_DeepCopyInto_independent c out h :
  valid h (Credentials c) ->
  let copied := DeepCopyInto c out h in
  h ⊆ copied.2 /\
  (forall out', DeepCopyInto c out' h = copied) /\
  (forall i v,
     credentials (assign copied.2 (Credentials copied.1) i v) c = credentials h c) /\
  (forall i v,
     credentials (assign copied.2 (Credentials c) i v) copied.1 = credentials h c).
Proof.
  intros V. cbv zeta.
  assert (N : h !! fresh (dom h) = None) by (apply not_elem_of_dom, is_fresh).
  split; [| split].
  - rewrite (KongConsumer_DeepCopyInto_run c out h V).
    destruct (Credentials c); [reflexivity | apply insert_subseteq, N].
  - intros out'. rewrite !(KongConsumer_DeepCopyInto_run c _ h V). reflexivity.
  - rewrite (KongConsumer_DeepCopyInto_run c out h V). unfold credentials.
    destruct (Credentials c) as [|b off n] eqn:C; [split; reflexivity|].
    destruct V as (arr & L & B).
    assert (D : fresh (dom h) <> b) by congruence.
    cbn [fst snd Credentials]. split; intros i v; simpl.
    + destruct (i <? n).
      * rewrite lookup_alter_ne by exact D. rewrite lookup_insert_ne by exact D. reflexivity.
      * rewrite lookup_insert_ne by exact D. reflexivity.
    + assert (E : length (take n (drop off arr)) = n)
        by (rewrite length_take, length_drop; lia).
      destruct (i <? n).
      * rewrite lookup_alter_ne by congruence. rewrite lookup_insert_eq, L. simpl.
        rewrite drop_0, take_ge by lia. reflexivity.
      * rewrite lookup_insert_eq, L. simpl. rewrite drop_0, take_ge by lia. reflexivity.
Qed.

End ConsumerCopy.

(** ** The deep copy of a KongConsumerList *)

Section ListCopy.
Import memory v1.
Variables ObjectMeta ListMeta : Type.
Variable ObjectMeta_DeepCopyInto : ObjectMeta -> ObjectMeta.
Variable ListMeta_DeepCopyInto : ListMeta -> ListMeta.
Variable ObjectMeta_zero : ObjectMeta.
Implicit Types (c out : KongConsumer ObjectMeta) (h : gmap loc (list string))
  (H : Heap ObjectMeta) (l : KongConsumerList ListMeta).

Local Abbreviation DeepCopyInto := (KongConsumer_DeepCopyInto ObjectMeta ObjectMeta_DeepCopyInto).
Local Abbreviation copyItems := (copyItems ObjectMeta ObjectMeta_DeepCopyInto ObjectMeta_zero).
Local Abbreviation copyOf := (copyOf ObjectMeta ObjectMeta_DeepCopyInto).
Local Abbreviation zero := (KongConsumer_zero ObjectMeta ObjectMeta_zero).
Local Abbreviation ListDeepCopyInto :=
  (KongConsumerList_DeepCopyInto ObjectMeta ListMeta ObjectMeta_DeepCopyInto
     ListMeta_DeepCopyInto ObjectMeta_zero).

Lemma KongConsumer_DeepCopyInto_copyOf c out h :
  valid h (Credentials c) ->
  h ⊆ (DeepCopyInto c out h).2 /\
  copyOf h (DeepCopyInto c out h).2 c (DeepCopyInto c out h).1.
Proof.
  intros V. rewrite (KongConsumer_DeepCopyInto_run _ ObjectMeta_DeepCopyInto c out h V).
  assert (N : h !! fresh (dom h) = None) by (apply not_elem_of_dom, is_fresh).
  unfold v1.copyOf, credentials.
  destruct (Credentials c) as [|b off n] eqn:C.
  - cbn [fst snd TypeMeta_ ObjectMeta_ Username CustomID Credentials].
    split; [reflexivity|]. repeat split; assumption.
  - cbn [fst snd TypeMeta_ ObjectMeta_ Username CustomID Credentials].
    assert (L : length (elements h (mkSlice b off n)) = n)
      by (rewrite (elements_length h _ V); reflexivity).
    remember (elements h (mkSlice b off n)) as shown.
    split; [apply insert_subseteq, N|]. repeat split; try discriminate.
    + unfold elements. rewrite lookup_insert_eq. simpl. rewrite drop_0. apply take_ge. lia.
    + eexists. rewrite lookup_insert_eq. split; [reflexivity|]. lia.
Qed.

(** A copy stays a copy when the memories grow. *)
Lemma copyOf_weaken h0 h h1 h' c c' :
  h0 ⊆ h -> h1 ⊆ h' -> valid h0 (Credentials c) ->
  copyOf h h1 c c' -> copyOf h0 h' c c'.
Proof.
  intros S0 S1 V (T & M & U & I & E & W & N). unfold v1.copyOf, credentials in *.
  destruct (elements_weaken _ _ _ S0 V) as (E0 & _).
  destruct (elements_weaken _ _ _ S1 W) as (E1 & W1).
  repeat split; try assumption; try tauto. congruence.
Qed.

Section Loop.
Variables (a b : loc) (off n : nat) (inArr : list (KongConsumer ObjectMeta)).
Hypothesis distinct : a <> b.
Hypothesis within : off + n <= length inArr.

Lemma copyItems_spec (m : nat) :
  forall k H outArr,
    k + m = n ->
    consumers H !! b = Some inArr ->
    consumers H !! a = Some outArr ->
    length outArr = n ->
    (forall i x, i < n -> inArr !! (off + i) = Some x -> valid (strings H) (Credentials x)) ->
    strings H ⊆ strings (copyItems (seq k m) (mkSlice b off n) (mkSlice a 0 n) H) /\
    (forall p, p <> a ->
       consumers (copyItems (seq k m) (mkSlice b off n) (mkSlice a 0 n) H) !! p
         = consumers H !! p) /\
    exists outArr',
      consumers (copyItems (seq k m) (mkSlice b off n) (mkSlice a 0 n) H) !! a = Some outArr' /\
      length outArr' = n /\
      (forall i, i < k -> outArr' !! i = outArr !! i) /\
      (forall i, k <= i < n ->
         exists x x',
           inArr !! (off + i) = Some x /\ outArr' !! i = Some x' /\
           copyOf (strings H)
             (strings (copyItems (seq k m) (mkSlice b off n) (mkSlice a 0 n) H)) x x').
Proof.
  induction m as [|m IH]; intros k H outArr K B A L V.
  - simpl. split; [reflexivity|]. split; [reflexivity|].
    exists outArr. repeat split; try assumption. intros i ?. lia.
  - assert (Kn : k < n) by lia.
    destruct (lookup_lt_is_Some_2 inArr (off + k)) as [x X]; [lia|].
    assert (R : index zero (consumers H) (mkSlice b off n) k = x).
    { unfold index, elements. rewrite B. simpl.
      rewrite lookup_take_lt by exact Kn. rewrite lookup_drop, X. reflexivity. }
    pose proof (V k x Kn X) as Vx.
    cbn [seq v1.copyItems]. rewrite R.
    set (o := index zero (consumers H) (mkSlice a 0 n) k).
    destruct (KongConsumer_DeepCopyInto_copyOf x o (strings H) Vx) as (S1 & C1).
    set (copied := DeepCopyInto x o (strings H)) in *.
    set (H1 := {| strings := copied.2;
                  consumers := assign (consumers H) (mkSlice a 0 n) k copied.1 |}).
    assert (A1 : consumers H1 !! a = Some (<[k := copied.1]> outArr)).
    { unfold H1. cbn [consumers]. unfold assign.
      apply Nat.ltb_lt in Kn. rewrite Kn. rewrite lookup_alter_eq, A. reflexivity. }
    assert (O1 : forall p, p <> a -> consumers H1 !! p = consumers H !! p).
    { intros p P. unfold H1. cbn [consumers]. unfold assign.
      destruct (k <? n); [apply lookup_alter_ne; congruence | reflexivity]. }
    assert (B1 : consumers H1 !! b = Some inArr) by (rewrite O1 by congruence; exact B).
    assert (V1 : forall i y, i < n -> inArr !! (off + i) = Some y ->
                             valid (strings H1) (Credentials y)).
    { intros i y I Y. apply (elements_weaken (strings H) _ _ S1 (V i y I Y)). }
    destruct (IH (S k) H1 (<[k := copied.1]> outArr)) as (S' & O' & outArr' & A' & L' & P' & C');
      try assumption; [lia | rewrite length_insert; exact L |].
    split; [etransitivity; [exact S1 | exact S']|].
    split; [intros p P; rewrite (O' p P); apply O1, P|].
    exists outArr'. split; [exact A'|]. split; [exact L'|]. split.
    + intros i I. rewrite (P' i) by lia. apply list_lookup_insert_ne. lia.
    + intros i I. destruct (decide (i = k)) as [->|NE].
      * exists x, copied.1. split; [exact X|]. split.
        -- rewrite (P' k) by lia. apply list_lookup_insert_eq. lia.
        -- eapply (copyOf_weaken (strings H) (strings H) copied.2);
             [reflexivity | exact S' | exact Vx | exact C1].
      * destruct (C' i) as (y & y' & Y & Y' & CY); [lia|].
        exists y, y'. split; [exact Y|]. split; [exact Y'|].
        eapply (copyOf_weaken (strings H) (strings H1));
          [exact S1 | reflexivity | apply (V i y); [lia | exact Y] | exact CY].
Qed.

End Loop.

(** X22. The deep copy of a list. For a list whose items lie in the
    memory, each with credentials that lie in the memory,
    [DeepCopyInto] returns a list with the same type meta, the deep copy
    of the list meta and as many items, each a copy of the item at its
    place (same fields, credentials showing the same elements); the items
    are nil exactly when the receiver's are; and no array that was in the
    memory is changed. *)
Theorem KongConsumerList_DeepCopyInto_copies l (target : KongConsumerList ListMeta) H :
  valid (consumers H) (Items l) ->
  Forall (fun c => valid (strings H) (Credentials c)) (elements (consumers H) (Items l)) ->
  ListTypeMeta (ListDeepCopyInto l target H).1 = ListTypeMeta l /\
  ListMeta_ (ListDeepCopyInto l target H).1 = ListMeta_DeepCopyInto (ListMeta_ l) /\
  (Items (ListDeepCopyInto l target H).1 = nilSlice <-> Items l = nilSlice) /\
  Forall2 (copyOf (strings H) (strings (ListDeepCopyInto l target H).2))
    (elements (consumers H) (Items l))
    (elements (consumers (ListDeepCopyInto l target H).2) (Items (ListDeepCopyInto l target H).1)) /\
  strings H ⊆ strings (ListDeepCopyInto l target H).2 /\
  consumers H ⊆ consumers (ListDeepCopyInto l target H).2.
Proof.
  intros V F. unfold KongConsumerList_DeepCopyInto.
  destruct (Items l) as [|b off n] eqn:I.
  { cbn [fst snd ListTypeMeta ListMeta_ Items].
    repeat split; try reflexivity; try assumption. constructor. }
  destruct V as (inArr & B & W).
  assert (N : consumers H !! fresh (dom (consumers H)) = None)
    by (apply not_elem_of_dom, is_fresh).
  set (a := fresh (dom (consumers H))) in *.
  assert (D : a <> b) by congruence.
  cbn [fst snd ListTypeMeta ListMeta_ Items len make].
  fold a.
  set (H0 := {| strings := strings H;
                consumers := <[a := replicate n zero]> (consumers H) |}).
  assert (shown : elements (consumers H) (mkSlice b off n) = take n (drop off inArr))
    by (unfold elements; rewrite B; reflexivity).
  rewrite shown in F |- *.
  destruct (copyItems_spec a b off n inArr D W n 0 H0 (replicate n zero))
    as (S' & O' & outArr' & A' & L' & _ & C').
  - lia.
  - unfold H0. cbn [consumers]. rewrite lookup_insert_ne by exact D. exact B.
  - unfold H0. cbn [consumers]. apply lookup_insert_eq.
  - apply length_replicate.
  - intros i x Lt X. unfold H0. cbn [strings].
    apply (proj1 (Forall_lookup _ _) F i x).
    rewrite lookup_take_lt by exact Lt. rewrite lookup_drop. exact X.
  - set (H' := copyItems (seq 0 n) (mkSlice b off n) (mkSlice a 0 n) H0) in *.
    split; [reflexivity|]. split; [reflexivity|]. split; [split; discriminate|].
    split; [| split].
    + unfold elements at 1. rewrite A'. simpl. rewrite drop_0, (take_ge outArr') by lia.
      apply Forall2_same_length_lookup_2.
      * rewrite length_take, length_drop. lia.
      * intros i x y X Y.
        assert (Lt : i < n) by (apply lookup_lt_Some in Y; lia).
        rewrite lookup_take_lt in X by exact Lt. rewrite lookup_drop in X.
        destruct (C' i) as (x0 & y0 & X0 & Y0 & CY); [lia|].
        rewrite X in X0. rewrite Y in Y0. injection X0 as <-. injection Y0 as <-. exact CY.
    + exact S'.
    + apply map_subseteq_spec. intros p arr P.
      assert (NE : p <> a) by congruence.
      rewrite (O' p NE). unfold H0. cbn [consumers].
      rewrite lookup_insert_ne by congruence. exact P.
Qed.

End ListCopy.

(** Alice's consumer is copied: the copy shows her two credentials, and
    overwriting the first credential of the copy leaves hers as they are. *)
Lemma KongConsumer_DeepCopyInto_independent_witness :
  let copied := v1.KongConsumer_DeepCopyInto (list (string * string)) id doubles.consumerAlice
                  doubles.consumerBob doubles.stringArrays in
  v1.credentials (memory.assign copied.2 (v1.Credentials copied.1) 0 "overwritten")
    doubles.consumerAlice = ["alice-key-auth"; "alice-basic-auth"] /\
  v1.credentials (memory.assign copied.2 (v1.Credentials doubles.consumerAlice) 0 "overwritten")
    copied.1 = ["alice-key-auth"; "alice-basic-auth"].
Proof.
  cbv zeta.
  destruct (KongConsumer_DeepCopyInto_independent (list (string * string)) id
              doubles.consumerAlice doubles.consumerBob doubles.stringArrays)
    as (_ & _ & copy & original).
  - exists ["unused"; "alice-key-auth"; "alice-basic-auth"]. split; [reflexivity | simpl; lia].
  - split; [rewrite copy | rewrite original]; reflexivity.
Defined.

(** The list of alice and bob is copied item by item. *)
Lemma KongConsumerList_DeepCopyInto_copies_witness :
  let copied := v1.KongConsumerList_DeepCopyInto (list (string * string)) string id id []
                  doubles.consumerList doubles.consumerList doubles.consumerHeap in
  Forall2 (v1.copyOf (list (string * string)) id (v1.strings doubles.consumerHeap)
             (v1.strings copied.2))
    [doubles.consumerAlice; doubles.consumerBob]
    (memory.elements (v1.consumers copied.2) (v1.Items copied.1)) /\
  v1.consumers doubles.consumerHeap ⊆ v1.consumers copied.2.
Proof.
  cbv zeta.
  destruct (KongConsumerList_DeepCopyInto_copies (list (string * string)) string id id []
              doubles.consumerList doubles.consumerList doubles.consumerHeap)
    as (_ & _ & _ & items & _ & kept).
  - exists [doubles.consumerAlice; doubles.consumerBob]. split; [reflexivity | simpl; lia].
  - repeat constructor.
    exists ["unused"; "alice-key-auth"; "alice-basic-auth"]. split; [reflexivity | simpl; lia].
  - split; [exact items | exact kept].
Defined.
